(** * The click-logging worker (src/goliath/worker/worker.js)

    A shallow embedding of the worker's [fetch] handler: the two routes
    [POST /log] and [GET /stats], the JavaScript primitives they rely on
    (string slicing, [parseInt], number printing, truthiness, property
    lookup on a plain object, [Date]) and an in-memory model of the KV
    namespace [env.CLICKS].

    Conventions.
    - A character of a model string stands for one UTF-16 code unit; the
      model covers code units below 256.
    - Numbers are IEEE doubles.  The counters and the [days] window only
      ever hold integer-valued doubles, infinities or NaN, which is what
      [num] represents.  The sign of zero is not tracked: the handler tests
      every parsed number for truthiness before using it, and both zeros
      are falsy.
    - The KV namespace is sequentially consistent and paginates [list]
      deterministically.  The passing of time is not modelled: [data]
      holds under each key the entry last written there, together with the
      TTL given to [put], also when that TTL has run out; what the
      namespace serves at a later instant is the part of [data] whose TTL
      has not run out.  The handler reads [click:] keys only, and writes
      them without a TTL.  No statement says of an entry with a TTL that
      it is still served at an instant after the request that wrote it. *)

From Stdlib Require Import ZArith Ascii.
From stdpp Require Import base strings gmap list sorting.
Local Open Scope Z_scope.

(** * JavaScript strings *)

(** [s.slice(0, n)] *)
Fixpoint str_take (n : nat) (s : string) : string :=
  match n, s with
  | S n', String c s' => String c (str_take n' s')
  | _, _ => ""
  end.

(** [s.slice(n)] *)
Fixpoint str_drop (n : nat) (s : string) : string :=
  match n, s with
  | S n', String _ s' => str_drop n' s'
  | _, _ => s
  end.

Fixpoint starts_with (p s : string) : bool :=
  match p, s with
  | "", _ => true
  | String a p', String b s' => if decide (a = b) then starts_with p' s' else false
  | String _ _, "" => false
  end.

Definition char_code (c : ascii) : Z := Z.of_N (N_of_ascii c).

(** * JavaScript numbers *)

Inductive num : Type :=
  | NaN
  | PInf
  | NInf
  | Int (z : Z).

Definition num_eqb (x y : num) : bool :=
  match x, y with
  | NaN, NaN | PInf, PInf | NInf, NInf => true
  | Int a, Int b => a =? b
  | _, _ => false
  end.

(** The double nearest to the integer [z], ties to the even significand;
    magnitudes from [2^1024 - 2^970] on overflow to an infinity. *)
Definition round_to_double (z : Z) : num :=
  let a := Z.abs z in
  if a <=? 2 ^ 53 then Int z
  else
    let e := Z.log2 a - 52 in
    let q := a / 2 ^ e in
    let r := a mod 2 ^ e in
    let half := 2 ^ (e - 1) in
    let q' := if r <? half then q
              else if half <? r then q + 1
              else if Z.even q then q else q + 1 in
    let m := q' * 2 ^ e in
    if 2 ^ 1024 <=? m then (if z <? 0 then NInf else PInf)
    else Int (Z.sgn z * m).

(** [x + y] on numbers *)
Definition js_add (x y : num) : num :=
  match x, y with
  | NaN, _ | _, NaN => NaN
  | PInf, NInf | NInf, PInf => NaN
  | PInf, _ | _, PInf => PInf
  | NInf, _ | _, NInf => NInf
  | Int a, Int b => round_to_double (a + b)
  end.

(** [Math.min(x, y)] and [Math.max(x, y)] *)
Definition Math_min (x y : num) : num :=
  match x, y with
  | NaN, _ | _, NaN => NaN
  | NInf, _ | _, NInf => NInf
  | PInf, v | v, PInf => v
  | Int a, Int b => Int (Z.min a b)
  end.

Definition Math_max (x y : num) : num :=
  match x, y with
  | NaN, _ | _, NaN => NaN
  | PInf, _ | _, PInf => PInf
  | NInf, v | v, NInf => v
  | Int a, Int b => Int (Z.max a b)
  end.

(** Truthiness of a number: NaN and zero are falsy. *)
Definition num_truthy (x : num) : bool :=
  match x with
  | NaN => false
  | Int z => negb (z =? 0)
  | _ => true
  end.

(** [x || d] for a number [x] *)
Definition num_or (x d : num) : num := if num_truthy x then x else d.

(** ** Printing numbers *)

Definition digit_char (d : Z) : ascii := ascii_of_N (Z.to_N (48 + d)).

Fixpoint digits_go (fuel : nat) (n : Z) (acc : string) : string :=
  match fuel with
  | O => acc
  | S f =>
      let acc' := String (digit_char (n mod 10)) acc in
      if n <? 10 then acc' else digits_go f (n / 10) acc'
  end.

(** Decimal digits of a non-negative integer, most significant first. *)
Definition decimal (n : Z) : string :=
  digits_go (S (Z.to_nat (Z.log2 n))) n "".

Definition ndigits (n : Z) : Z := Z.of_nat (String.length (decimal n)).

Definition is_double (v z : Z) : bool := num_eqb (round_to_double v) (Int z).

(** Number::toString picks the decimal with the fewest significant digits
    that still reads back as the same double and, among those, the one
    closest to it.  [shortest_go fuel k z] tries [k], [k+1], ... digits. *)
Fixpoint shortest_go (fuel : nat) (k : Z) (z : Z) : Z :=
  match fuel with
  | O => z
  | S f =>
      let p := 10 ^ (ndigits z - k) in
      let lo := (z / p) * p in
      let hi := lo + p in
      let oklo := is_double lo z in
      let okhi := is_double hi z in
      if oklo && okhi then
        (if z - lo <? hi - z then lo
         else if hi - z <? z - lo then hi
         else if Z.even (z / p) then lo else hi)
      else if oklo then lo
      else if okhi then hi
      else shortest_go f (k + 1) z
  end.

Definition shortest (z : Z) : Z := shortest_go 17 1 z.

Fixpoint strip_zeros (s : string) : string :=
  match s with
  | String "0" s' => strip_zeros s'
  | _ => s
  end.

Definition strip_trailing_zeros (s : string) : string :=
  String.rev (strip_zeros (String.rev s)).

(** Exponent notation, used from [1e21] on. *)
Definition exponential (v : Z) : string :=
  let ds := decimal v in
  let n := Z.of_nat (String.length ds) in
  match strip_trailing_zeros ds with
  | String c "" => String c ("e+" +:+ decimal (n - 1))
  | String c rest => String c ("." +:+ rest +:+ "e+" +:+ decimal (n - 1))
  | "" => ""
  end.

Definition magnitude_toString (a : Z) : string :=
  if a <=? 2 ^ 53 then decimal a
  else
    let v := shortest a in
    if v <? 10 ^ 21 then decimal v else exponential v.

(** [String(x)] and [x.toString()] for a number [x] *)
Definition Number_toString (x : num) : string :=
  match x with
  | NaN => "NaN"
  | PInf => "Infinity"
  | NInf => "-Infinity"
  | Int z => if z <? 0 then String "-" (magnitude_toString (- z))
             else magnitude_toString z
  end.

(** ** [parseInt(s, 10)] *)

(** White space that [parseInt] skips (code units below 256): TAB, LF, VT,
    FF, CR, SP and NBSP. *)
Definition is_whitespace (c : ascii) : bool :=
  let n := char_code c in
  ((9 <=? n) && (n <=? 13)) || (n =? 32) || (n =? 160).

Fixpoint trim_start (s : string) : string :=
  match s with
  | String c s' => if is_whitespace c then trim_start s' else s
  | "" => ""
  end.

Definition digit_value (c : ascii) : option Z :=
  let n := char_code c in
  if (48 <=? n) && (n <=? 57) then Some (n - 48) else None.

(** Value of the longest prefix of decimal digits, continuing from [acc]. *)
Fixpoint parse_digits (s : string) (acc : Z) : Z :=
  match s with
  | String c s' =>
      match digit_value c with
      | Some d => parse_digits s' (10 * acc + d)
      | None => acc
      end
  | "" => acc
  end.

Definition starts_with_digit (s : string) : bool :=
  match s with
  | String c _ => bool_decide (is_Some (digit_value c))
  | "" => false
  end.

Definition parseInt (s : string) : num :=
  let s1 := trim_start s in
  let '(sign, s2) :=
    match s1 with
    | String "-" r => (-1, r)
    | String "+" r => (1, r)
    | _ => (1, s1)
    end in
  if starts_with_digit s2 then round_to_double (sign * parse_digits s2 0)
  else NaN.

(** [s || d] for a string-or-null [s] *)
Definition str_or (s : option string) (d : string) : string :=
  match s with
  | Some (String c r) => String c r
  | _ => d
  end.

(** ** Exceptions *)

Inductive exn : Type := TypeError | RangeError.

Inductive completion (A : Type) : Type :=
  | Normal (a : A)
  | Throw (e : exn).
Arguments Normal {A} a.
Arguments Throw {A} e.

Definition cbind {A B} (c : completion A) (k : A -> completion B) : completion B :=
  match c with
  | Normal a => k a
  | Throw e => Throw e
  end.

Notation "'try' x <- c ; k" := (cbind c (fun x => k))
  (at level 10, x name, c at level 100, k at level 200).

(** * Dates *)

Definition msPerDay : Z := 86400000.

(** A [Date] object holds a time value in milliseconds since the epoch, or
    none when it is an Invalid Date. *)
Definition TimeClip (t : Z) : option Z :=
  if Z.abs t <=? 8640000000000000 then Some t else None.

(** Civil date [(year, month, day)] of a day number counted from
    1970-01-01, in the proleptic Gregorian calendar. *)
Definition civil_from_days (n : Z) : Z * Z * Z :=
  let z := n + 719468 in
  let era := z / 146097 in
  let doe := z - era * 146097 in
  let yoe := (doe - doe / 1460 + doe / 36524 - doe / 146096) / 365 in
  let doy := doe - (365 * yoe + yoe / 4 - yoe / 100) in
  let mp := (5 * doy + 2) / 153 in
  let d := doy - (153 * mp + 2) / 5 + 1 in
  let m := if mp <? 10 then mp + 3 else mp - 9 in
  let y := yoe + era * 400 + (if m <=? 2 then 1 else 0) in
  (y, m, d).

(** [n] written with at least [w] digits. *)
Definition pad (w : nat) (n : Z) : string :=
  let ds := decimal n in
  String.concat "" (replicate (w - String.length ds) "0") +:+ ds.

Definition iso_year (y : Z) : string :=
  if (0 <=? y) && (y <=? 9999) then pad 4 y
  else if y <? 0 then String "-" (pad 6 (- y))
  else String "+" (pad 6 y).

Definition iso_string (t : Z) : string :=
  let '(y, m, d) := civil_from_days (t / msPerDay) in
  let ms := t mod msPerDay in
  iso_year y +:+ "-" +:+ pad 2 m +:+ "-" +:+ pad 2 d +:+ "T" +:+
  pad 2 (ms / 3600000) +:+ ":" +:+ pad 2 (ms / 60000 mod 60) +:+ ":" +:+
  pad 2 (ms / 1000 mod 60) +:+ "." +:+ pad 3 (ms mod 1000) +:+ "Z".

(** [d.toISOString()] *)
Definition Date_toISOString (d : option Z) : completion string :=
  match d with
  | Some t => Normal (iso_string t)
  | None => Throw RangeError
  end.

(** Day number of the [d]-th day of month [m] of year [y]; [d] may run
    past the end of the month. *)
Definition days_from_civil (y m d : Z) : Z :=
  let y' := if m <=? 2 then y - 1 else y in
  let era := y' / 400 in
  let yoe := y' - era * 400 in
  let doy := (153 * (if 2 <? m then m - 3 else m + 9) + 2) / 5 + d - 1 in
  let doe := yoe * 365 + yoe / 4 - yoe / 100 + doy in
  era * 146097 + doe - 719468.

(** [Date.UTC(y, m, d)], with [m] counted from 1: a year from 0 to 99
    stands for a year of the twentieth century. *)
Definition Date_UTC (y m d : Z) : Z :=
  let yr := if (0 <=? y) && (y <=? 99) then 1900 + y else y in
  days_from_civil yr m d * msPerDay.

(** [new Date(Date.UTC(d.getUTCFullYear(), d.getUTCMonth(), d.getUTCDate()))] *)
Definition utc_midnight (d : option Z) : option Z :=
  match d with
  | Some t => let '(y, m, dd) := civil_from_days (t / msPerDay) in
              TimeClip (Date_UTC y m dd)
  | None => None
  end.

(** [d.setUTCDate(d.getUTCDate() - i)] *)
Definition minus_days (d : option Z) (i : Z) : option Z :=
  match d with
  | Some t => TimeClip (t - i * msPerDay)
  | None => None
  end.

(** * JSON values *)

(** Numbers of the request body.  The handler tests them for truthiness
    and prints them; nothing else is observed, so any representation of
    the doubles that JSON text denotes will do. *)
Class JsonNumber (number : Type) := {
  number_truthy : number -> bool;
  number_toString : number -> string;
}.

(** What [request.json()] can return.  An object keeps its members in
    source order; for a repeated key the last member counts. *)
#[warnings="-register-all"]
Inductive json {number : Type} : Type :=
  | JNull
  | JBool (b : bool)
  | JNum (n : number)
  | JStr (s : string)
  | JArr (items : list json)
  | JObj (members : list (string * json)).
Arguments json number : clear implicits.

(** Own property [name] of a parsed object. *)
Fixpoint own_property {A} (name : string) (members : list (string * A)) : option A :=
  match members with
  | [] => None
  | (k, v) :: rest =>
      match own_property name rest with
      | Some w => Some w
      | None => if String.eqb k name then Some v else None
      end
  end.

Section Coercion.
Context `{JsonNumber number}.

Definition truthy (v : json number) : bool :=
  match v with
  | JNull => false
  | JBool b => b
  | JNum n => number_truthy n
  | JStr s => negb (String.eqb s "")
  | JArr _ | JObj _ => true
  end.

(** [v.toString()] for a value that is neither null nor undefined, which
    is also the string conversion of [v] inside [Array.prototype.join].
    A parsed object inherits [Object.prototype.toString] unless it has a
    member of that name, and such a member is never callable. *)
Fixpoint toString (v : json number) : completion string :=
  match v with
  | JNull => Throw TypeError
  | JBool b => Normal (if b then "true" else "false")
  | JNum n => Normal (number_toString n)
  | JStr s => Normal s
  | JArr items =>
      (fix join (l : list (json number)) : completion string :=
         match l with
         | [] => Normal ""
         | x :: rest =>
             try s <- (match x with JNull => Normal "" | _ => toString x end);
             match rest with
             | [] => Normal s
             | _ => try r <- join rest; Normal (s +:+ "," +:+ r)
             end
         end) items
  | JObj members =>
      match own_property "toString" members with
      | Some _ => Throw TypeError
      | None => Normal "[object Object]"
      end
  end.

(** [body.name] for one of the names [ts], [ad_id], [genre], [page_id],
    [page_url]: none of them is inherited from a prototype, so every
    value but an object yields undefined, and null throws. *)
Definition get_field (body : json number) (name : string)
  : completion (option (json number)) :=
  match body with
  | JNull => Throw TypeError
  | JObj members => Normal (own_property name members)
  | _ => Normal None
  end.

(** [(v || d).toString()], with [d] evaluated only when [v] is falsy *)
Definition or_toString (v : option (json number)) (d : completion string)
  : completion string :=
  match v with
  | Some x => if truthy x then toString x else d
  | None => d
  end.
End Coercion.

(** ** [JSON.stringify] of the metadata object *)

Definition dquote : ascii := "034"%char.
Definition backslash : ascii := "092"%char.

Definition hex_digit (n : Z) : ascii :=
  if n <? 10 then digit_char n else ascii_of_N (Z.to_N (87 + n)).

Definition quote_char (c : ascii) : string :=
  let n := char_code c in
  if n =? 34 then String backslash (String dquote "")
  else if n =? 92 then String backslash (String backslash "")
  else if n =? 8 then String backslash "b"
  else if n =? 9 then String backslash "t"
  else if n =? 10 then String backslash "n"
  else if n =? 12 then String backslash "f"
  else if n =? 13 then String backslash "r"
  else if n <? 32 then
    String backslash ("u00" +:+ String (hex_digit (n / 16)) (String (hex_digit (n mod 16)) ""))
  else String c "".

Fixpoint quote_body (s : string) : string :=
  match s with
  | "" => ""
  | String c s' => quote_char c +:+ quote_body s'
  end.

Definition quote (s : string) : string :=
  String dquote (quote_body s +:+ String dquote "").

(** [JSON.stringify({ genre, page_id, page_url })] *)
Definition stringify_meta (genre page_id page_url : string) : string :=
  "{" +:+ quote "genre" +:+ ":" +:+ quote genre +:+ "," +:+
  quote "page_id" +:+ ":" +:+ quote page_id +:+ "," +:+
  quote "page_url" +:+ ":" +:+ quote page_url +:+ "}".

(** * The KV namespace [env.CLICKS] *)

Record entry : Type := { value : string; expirationTtl : option Z }.

(** Calls made on the namespace, in the order they happen. *)
Inductive kv_op : Type :=
  | OpGet (key : string)
  | OpPut (key : string) (val : string) (ttl : option Z)
  | OpList (prefix : string) (cursor : option nat).

Record kv : Type := { data : gmap string entry; ops : list kv_op }.

Definition called (op : kv_op) (st : kv) : kv :=
  {| data := data st; ops := ops st ++ [op] |}.

(** Handler code runs against the namespace. *)
Definition M (A : Type) : Type := kv -> A * kv.

Definition ret {A} (a : A) : M A := fun st => (a, st).

Definition bind {A B} (m : M A) (k : A -> M B) : M B :=
  fun st => let '(a, st') := m st in k a st'.

Notation "'do' x <- m ; k" := (bind m (fun x => k))
  (at level 10, x name, m at level 100, k at level 200).

(** [await env.CLICKS.get(key)] *)
Definition kv_get (key : string) : M (option string) :=
  fun st => (value <$> data st !! key, called (OpGet key) st).

(** [await env.CLICKS.put(key, val, { expirationTtl })]: the entry
    replaces the one under [key], and the TTL in seconds is kept with it.
    The namespace drops the entry once the TTL has run out; that is not
    part of [data]. *)
Definition kv_put (key val : string) (ttl : option Z) : M unit :=
  fun st =>
    (tt, {| data := <[key := {| value := val; expirationTtl := ttl |}]> (data st);
            ops := ops st ++ [OpPut key val ttl] |}).

(** [list] returns at most this many keys per call. *)
Definition list_limit : nat := 1000.

Record list_result : Type := { keys : list string; cursor : option nat }.

(** All keys under [prefix], in the order [list] yields them. *)
Definition matching_keys (prefix : string) (d : gmap string entry) : list string :=
  filter (fun k => Is_true (starts_with prefix k))
         (merge_sort String.le (map_to_list d).*1).

(** [await env.CLICKS.list({ prefix, cursor })]: the cursor is the number of
    keys already returned, and is absent once the listing is complete. *)
Definition kv_list (prefix : string) (cur : option nat) : M list_result :=
  fun st =>
    let off := default 0%nat cur in
    let rest := drop off (matching_keys prefix (data st)) in
    ({| keys := take list_limit rest;
        cursor := if decide (list_limit < length rest)%nat
                  then Some (off + list_limit)%nat else None |},
     called (OpList prefix cur) st).

(** * The accumulator [by_ad_id] *)

(** Values the accumulator holds: sums, and strings once [+] has
    concatenated. *)
Inductive jsval : Type :=
  | VNum (x : num)
  | VStr (s : string).

(** Functions that an object created by [{}] inherits from
    [Object.prototype], by property name, with the function's own name. *)
Definition Object_prototype_functions : list (string * string) :=
  [ ("constructor", "Object");
    ("__defineGetter__", "__defineGetter__");
    ("__defineSetter__", "__defineSetter__");
    ("hasOwnProperty", "hasOwnProperty");
    ("__lookupGetter__", "__lookupGetter__");
    ("__lookupSetter__", "__lookupSetter__");
    ("isPrototypeOf", "isPrototypeOf");
    ("propertyIsEnumerable", "propertyIsEnumerable");
    ("toString", "toString");
    ("valueOf", "valueOf");
    ("toLocaleString", "toLocaleString") ].

(** What [o[k]] finds. *)
Inductive property : Type :=
  | Undefined
  | OwnValue (v : jsval)
  | InheritedFunction (name : string)
  | ProtoAccessor.

Definition get_property (o : gmap string jsval) (k : string) : property :=
  match o !! k with
  | Some v => OwnValue v
  | None =>
      if String.eqb k "__proto__" then ProtoAccessor
      else match own_property k Object_prototype_functions with
           | Some name => InheritedFunction name
           | None => Undefined
           end
  end.

(** [(p || 0) + v]: a truthy number is added to, a falsy value counts as
    0, and anything else is turned into a string and [v] appended to it. *)
Definition or_zero_plus (p : property) (v : num) : jsval :=
  match p with
  | Undefined => VNum (js_add (Int 0) v)
  | OwnValue (VNum x) => VNum (js_add (num_or x (Int 0)) v)
  | OwnValue (VStr "") => VNum (js_add (Int 0) v)
  | OwnValue (VStr s) => VStr (s +:+ Number_toString v)
  | InheritedFunction name =>
      VStr ("function " +:+ name +:+ "() { [native code] }" +:+ Number_toString v)
  | ProtoAccessor => VStr ("[object Object]" +:+ Number_toString v)
  end.

(** [o[k] = v] for a number or string [v]: the [__proto__] setter ignores
    such a value, any other name becomes an own property. *)
Definition set_property (o : gmap string jsval) (k : string) (v : jsval)
  : gmap string jsval :=
  if String.eqb k "__proto__" then o else <[k := v]> o.

(** * The handler *)

Inductive body : Type :=
  | Text (s : string)
  | StatsJson (days : num) (by_ad_id : gmap string jsval).

(** How a call of [fetch] ends: with a response, with an uncaught
    exception, or [Unfinished] when a listing is cut off by the bound that
    [scan_prefix] puts on the number of pages. *)
Inductive outcome : Type :=
  | Response (status : Z) (b : body)
  | Threw (e : exn)
  | Unfinished.

Record environment : Type := { STATS_TOKEN : option string }.

(** The parts of the request that the handler reads: [request.method],
    [url.pathname], [request.headers.get("authorization")],
    [url.searchParams.get("days")], and the value of [request.json()],
    none when it throws. *)
Record request {number : Type} : Type := {
  method : string;
  pathname : string;
  authorization : option string;
  days_param : option string;
  json_body : option (json number);
}.
Arguments request number : clear implicits.

Record click : Type := {
  ts : string;
  ad_id : string;
  genre : string;
  page_id : string;
  page_url : string;
}.

(** [parseInt((await env.CLICKS.get(key)) || "0", 10) || 0] *)
Definition read_counter (key : string) : M num :=
  do v <- kv_get key;
  ret (num_or (parseInt (str_or v "0")) (Int 0)).

Definition counter_key (day ad : string) : string :=
  "click:" +:+ day +:+ ":" +:+ ad.

Definition meta_key (ad : string) : string := "meta:" +:+ ad.

Definition stats_prefix (day : string) : string := "click:" +:+ day +:+ ":".

(** [Math.max(1, Math.min(30, parseInt(q || "7", 10) || 7))] *)
Definition stats_days (q : option string) : num :=
  Math_max (Int 1) (Math_min (Int 30) (num_or (parseInt (str_or q "7")) (Int 7))).

(** [for (const k of res.keys) { ... }] *)
Fixpoint add_keys (prefix : string) (ks : list string) (acc : gmap string jsval)
  : M (gmap string jsval) :=
  match ks with
  | [] => ret acc
  | k :: rest =>
      let ad := str_drop (String.length prefix) k in
      do v <- read_counter k;
      add_keys prefix rest (set_property acc ad (or_zero_plus (get_property acc ad) v))
  end.

(** [do { ... } while (cursor)], for at most [fuel] pages *)
Fixpoint scan (fuel : nat) (prefix : string) (cur : option nat)
    (acc : gmap string jsval) : M (option (gmap string jsval)) :=
  match fuel with
  | O => ret None
  | S fuel' =>
      do res <- kv_list prefix cur;
      do acc' <- add_keys prefix (keys res) acc;
      match cursor res with
      | Some c => scan fuel' prefix (Some c) acc'
      | None => ret (Some acc')
      end
  end.

(** One more page than there are keys under the prefix always suffices. *)
Definition scan_prefix (prefix : string) (acc : gmap string jsval)
  : M (option (gmap string jsval)) :=
  fun st => scan (S (length (matching_keys prefix (data st)))) prefix None acc st.

(** Lines 48 to 50: the day of round [i], as [YYYY-MM-DD]. *)
Definition day_string (now : option Z) (i : Z) : completion string :=
  try iso <- Date_toISOString (minus_days (utc_midnight now) i);
  Normal (str_take 10 iso).

(** [for (let i = 0; i < days; i++) { ... }] with [n] rounds left *)
Fixpoint scan_days (n : nat) (i : Z) (now : option Z) (acc : gmap string jsval)
  : M (completion (option (gmap string jsval))) :=
  match n with
  | O => ret (Normal (Some acc))
  | S n' =>
      match day_string now i with
      | Throw e => ret (Throw e)
      | Normal day =>
          do r <- scan_prefix (stats_prefix day) acc;
          match r with
          | Some acc' => scan_days n' (i + 1) now acc'
          | None => ret (Normal None)
          end
      end
  end.

(** Number of rounds of [for (let i = 0; i < days; i++)]. *)
Definition rounds (days : num) : nat :=
  match days with
  | Int z => Z.to_nat z
  | _ => 0%nat
  end.

Definition handle_stats (now : Z) (q : option string) : M outcome :=
  let days := stats_days q in
  do r <- scan_days (rounds days) 0 (TimeClip now) ∅;
  ret (match r with
       | Normal (Some by_ad_id) => Response 200 (StatsJson days by_ad_id)
       | Normal None => Unfinished
       | Throw e => Threw e
       end).

Section Handler.
Context `{JsonNumber number}.

(** Lines 17 to 21: the five fields, coerced and cut to length. *)
Definition read_click (now : Z) (b : json number) : completion click :=
  try v <- get_field b "ts";
  try ts <- or_toString v (Date_toISOString (TimeClip now));
  try v <- get_field b "ad_id";
  try ad_id <- or_toString v (Normal "");
  try v <- get_field b "genre";
  try genre <- or_toString v (Normal "");
  try v <- get_field b "page_id";
  try page_id <- or_toString v (Normal "");
  try v <- get_field b "page_url";
  try page_url <- or_toString v (Normal "");
  Normal {| ts := ts;
            ad_id := str_take 120 ad_id;
            genre := str_take 80 genre;
            page_id := str_take 80 page_id;
            page_url := str_take 300 page_url |}.

(** Lines 29 to 36: count the click and remember the page. *)
Definition record_click (c : click) : M outcome :=
  let day := str_take 10 (ts c) in
  let key := counter_key day (ad_id c) in
  do cur <- read_counter key;
  do _ <- kv_put key (Number_toString (js_add cur (Int 1))) None;
  do _ <- kv_put (meta_key (ad_id c))
                 (stringify_meta (genre c) (page_id c) (page_url c))
                 (Some (60 * 60 * 24 * 30));
  ret (Response 200 (Text "ok")).

Definition handle_log (now : Z) (parsed : option (json number)) : M outcome :=
  match parsed with
  | None => ret (Response 400 (Text "bad json"))
  | Some b =>
      match read_click now b with
      | Throw e => ret (Threw e)
      | Normal c =>
          if String.eqb (ad_id c) "" then ret (Response 400 (Text "missing ad_id"))
          else record_click c
      end
  end.

(** [env.STATS_TOKEN && auth === `Bearer ${env.STATS_TOKEN}`] *)
Definition isAuthed (env : environment) (req : request number) : bool :=
  let auth := str_or (authorization req) "" in
  match STATS_TOKEN env with
  | Some (String c t) => String.eqb auth ("Bearer " +:+ String c t)
  | _ => false
  end.

Definition fetch (env : environment) (now : Z) (req : request number) : M outcome :=
  if String.eqb (pathname req) "/log" && String.eqb (method req) "POST" then
    handle_log now (json_body req)
  else if String.eqb (pathname req) "/stats" && String.eqb (method req) "GET" then
    if negb (isAuthed env req) then ret (Response 401 (Text "unauthorized"))
    else handle_stats now (days_param req)
  else ret (Response 404 (Text "not found")).
End Handler.

(** Requests handled one after the other, each at its own instant. *)
Fixpoint serve `{JsonNumber number} (env : environment)
    (reqs : list (Z * request number)) (st : kv) : kv :=
  match reqs with
  | [] => st
  | (now, req) :: rest => serve env rest (fetch env now req st).2
  end.

(** ** Vocabulary for the statements *)

(** The count that the handler reads under [key]. *)
Definition counter_value (d : gmap string entry) (key : string) : num :=
  num_or (parseInt (str_or (value <$> d !! key) "0")) (Int 0).

(** The click that [req] records when it arrives at [now]: some click
    exactly when [req] is a [POST /log] whose body parses, whose fields
    coerce without an exception and whose [ad_id] is not empty. *)
Definition logged_click `{JsonNumber number} (now : Z) (req : request number)
  : option click :=
  if String.eqb (pathname req) "/log" && String.eqb (method req) "POST" then
    match json_body req with
    | Some b =>
        match read_click now b with
        | Normal c => if String.eqb (ad_id c) "" then None else Some c
        | Throw _ => None
        end
    | None => None
    end
  else None.

(** Keys written by a sequence of calls. *)
Definition put_keys (l : list kv_op) : list string :=
  flat_map (fun op => match op with OpPut k _ _ => [k] | _ => [] end) l.

(** [st'] comes from [st] by calls that only read. *)
Definition reads_only (st st' : kv) : Prop :=
  data st' = data st /\ exists l, ops st' = ops st ++ l /\ put_keys l = [].

(** The entries that a recorded click leaves behind. *)
Definition counter_entry (n : num) : entry :=
  {| value := Number_toString n; expirationTtl := None |}.

Definition meta_entry (c : click) : entry :=
  {| value := stringify_meta (genre c) (page_id c) (page_url c);
     expirationTtl := Some 2592000 |}.

Definition click_key (c : click) : string :=
  counter_key (str_take 10 (ts c)) (ad_id c).

(** *** The metadata text read back

    What a reader of [meta:<ad_id>] finds when it parses the text as
    JSON: an object of exactly the three members [genre], [page_id] and
    [page_url], in this order and without white space, each a string
    literal.  The escapes are those of JSON; a raw control character or a
    quote that is not escaped ends the reading. *)

(** The character that stands after a backslash, for the escapes of one
    letter. *)
Definition unescape (e : ascii) : option ascii :=
  let n := char_code e in
  if n =? 34 then Some dquote
  else if n =? 92 then Some backslash
  else if n =? 47 then Some "/"%char
  else if n =? 98 then Some "008"%char
  else if n =? 116 then Some "009"%char
  else if n =? 110 then Some "010"%char
  else if n =? 102 then Some "012"%char
  else if n =? 114 then Some "013"%char
  else None.

Definition hex_value (c : ascii) : option Z :=
  let n := char_code c in
  if (48 <=? n) && (n <=? 57) then Some (n - 48)
  else if (97 <=? n) && (n <=? 102) then Some (n - 87)
  else if (65 <=? n) && (n <=? 70) then Some (n - 55)
  else None.

Definition push (c : ascii) (r : option (string * string)) : option (string * string) :=
  match r with
  | Some (s, rest) => Some (String c s, rest)
  | None => None
  end.

(** The characters of a string literal up to its closing quote, and the
    text after that quote. *)
Fixpoint unquote_body (s : string) : option (string * string) :=
  match s with
  | "" => None
  | String c r =>
      if Ascii.eqb c dquote then Some ("", r)
      else if Ascii.eqb c backslash then
        match r with
        | "" => None
        | String e r1 =>
            if Ascii.eqb e "u" then
              match r1 with
              | String h1 (String h2 (String h3 (String h4 r2))) =>
                  match hex_value h1, hex_value h2, hex_value h3, hex_value h4 with
                  | Some 0, Some 0, Some a, Some b =>
                      push (ascii_of_N (Z.to_N (16 * a + b))) (unquote_body r2)
                  | _, _, _, _ => None
                  end
              | _ => None
              end
            else
              match unescape e with
              | Some x => push x (unquote_body r1)
              | None => None
              end
        end
      else if char_code c <? 32 then None
      else push c (unquote_body r)
  end.

(** [s] without its prefix [p] *)
Fixpoint strip_prefix (p s : string) : option string :=
  match p, s with
  | "", _ => Some s
  | String a p', String b s' => if Ascii.eqb a b then strip_prefix p' s' else None
  | String _ _, "" => None
  end.

(** A quote, a member name, a quote, a colon and the quote that opens the
    value *)
Definition member_start (name : string) : string :=
  String dquote (name +:+ String dquote (String ":" (String dquote ""))).

Definition parse_meta (s : string) : option (string * string * string) :=
  match strip_prefix ("{" +:+ member_start "genre") s with
  | None => None
  | Some s1 =>
      match unquote_body s1 with
      | None => None
      | Some (g, s2) =>
          match strip_prefix ("," +:+ member_start "page_id") s2 with
          | None => None
          | Some s3 =>
              match unquote_body s3 with
              | None => None
              | Some (p, s4) =>
                  match strip_prefix ("," +:+ member_start "page_url") s4 with
                  | None => None
                  | Some s5 =>
                      match unquote_body s5 with
                      | None => None
                      | Some (u, s6) =>
                          if String.eqb s6 "}" then Some (g, p, u) else None
                      end
                  end
              end
          end
      end
  end.

(** A quote as a string, to spell JSON texts out. *)
Definition dq : string := String dquote "".

(** A non-empty string of decimal digits. *)
Fixpoint all_digits (s : string) : bool :=
  match s with
  | "" => true
  | String c s' => bool_decide (is_Some (digit_value c)) && all_digits s'
  end.

Definition decimal_string (s : string) : bool :=
  negb (String.eqb s "") && all_digits s.

(** Every entry under a [click:] key holds a decimal string, and its key
    ends in a non-empty [ad_id]. *)
Definition counters_ok (d : gmap string entry) : Prop :=
  forall key e, d !! key = Some e -> starts_with "click:" key = true ->
    decimal_string (value e) = true /\
    exists day ad, key = counter_key day ad /\ ad <> "".

(** No counter is above [2^53], the last integer up to which doubles count
    in steps of one. *)
Definition counters_bounded (d : gmap string entry) : Prop :=
  forall key e, d !! key = Some e -> starts_with "click:" key = true ->
    parse_digits (value e) 0 <= 2 ^ 53.

(** What one key of a listing does to the accumulator, given the store
    that the counter is read from. *)
Definition add_key (d : gmap string entry) (prefix : string)
    (acc : gmap string jsval) (k : string) : gmap string jsval :=
  let ad := str_drop (String.length prefix) k in
  set_property acc ad (or_zero_plus (get_property acc ad) (counter_value d k)).

(** The days of rounds [i], [i+1], ... of the scan, [n] of them. *)
Fixpoint day_strings (n : nat) (i : Z) (now : option Z) : completion (list string) :=
  match n with
  | O => Normal []
  | S n' =>
      try day <- day_string now i;
      try rest <- day_strings n' (i + 1) now;
      Normal (day :: rest)
  end.

(** The total of [ad] over [days], as the specification words it: the
    counters found under [click:<day>:<ad>] are added up day by day, with
    the [+] and the [|| 0] of numbers. *)
Definition clicks_of (d : gmap string entry) (days : list string) (ad : string)
  : option num :=
  foldl (fun total day =>
           let key := stats_prefix day +:+ ad in
           match d !! key with
           | Some _ =>
               Some (js_add (num_or (default (Int 0) total) (Int 0)) (counter_value d key))
           | None => total
           end)
        None days.

(** The same total as an integer: the sum of the decimal values stored
    for [ad] under the days. *)
Definition clicks_sum (d : gmap string entry) (days : list string) (ad : string) : Z :=
  foldr (fun day s =>
           match d !! (stats_prefix day +:+ ad) with
           | Some e => parse_digits (value e) 0 + s
           | None => s
           end)
        0 days.

(** Names under which [{}] has nothing to inherit. *)
Definition ordinary_name (ad : string) : Prop :=
  ad <> "__proto__" /\ own_property ad Object_prototype_functions = None.

(** A parsed object without its members named [name]. *)
Definition without_member {A} (name : string) (members : list (string * A))
  : list (string * A) :=
  filter (fun p => p.1 <> name) members.

(** ** Integer literals as body numbers *)

#[export] Instance integer_literal : JsonNumber Z := {
  number_truthy z := negb (z =? 0);
  number_toString z := Number_toString (round_to_double z);
}.

Definition empty_kv : kv := {| data := ∅; ops := [] |}.

(** * Sample data for the closed examples *)

Definition sample_env : environment := {| STATS_TOKEN := Some "s3cret" |}.

(** 2024-01-02T12:00:00.000Z *)
Definition sample_now : Z := 1704196800000.

Definition stats_request (q : option string) : request Z :=
  {| method := "GET"; pathname := "/stats";
     authorization := Some "Bearer s3cret";
     days_param := q; json_body := None |}.

Definition log_request (parsed : option (json Z)) : request Z :=
  {| method := "POST"; pathname := "/log";
     authorization := None; days_param := None; json_body := parsed |}.

Definition store_of (l : list (string * string)) : kv :=
  {| data := list_to_map
               (map (fun '(k, v) => (k, {| value := v; expirationTtl := None |})) l);
     ops := [] |}.

(** * Vocabulary for the further properties *)

(** Date string of the day with number [n], counted from 1970-01-01. *)
Definition utc_day (n : Z) : string := str_take 10 (iso_string (n * msPerDay)).

(** The [n] most recent UTC days at [now], today first. *)
Definition window_days (now : Z) (n : nat) : list string :=
  map (fun i => utc_day (now / msPerDay - Z.of_nat i)) (seq 0 n).

(** Keys read by a sequence of calls. *)
Definition get_keys (l : list kv_op) : list string :=
  flat_map (fun op => match op with OpGet k => [k] | _ => [] end) l.

(** Null, booleans, numbers and strings. *)
Definition is_primitive {number : Type} (v : json number) : bool :=
  match v with
  | JArr _ | JObj _ => false
  | _ => true
  end.

(** The two kinds of entries that the handler writes: a counter without
    expiry under a [click:] key, and under [meta:<ad_id>] a JSON text
    that reads back as three strings of bounded length, written with a
    TTL of 30 days. *)
Definition entry_shape (key : string) (e : entry) : Prop :=
  (starts_with "click:" key = true /\ expirationTtl e = None /\
   decimal_string (value e) = true) \/
  (exists ad g p u,
     key = meta_key ad /\ ad <> "" /\ (String.length ad <= 120)%nat /\
     (String.length g <= 80)%nat /\ (String.length p <= 80)%nat /\
     (String.length u <= 300)%nat /\
     parse_meta (value e) = Some (g, p, u) /\
     e = {| value := stringify_meta g p u; expirationTtl := Some (30 * 86400) |}).

(** Number of requests in [reqs] that record a click under [key]. *)
Fixpoint logged_count `{JsonNumber number} (reqs : list (Z * request number))
    (key : string) : Z :=
  match reqs with
  | [] => 0
  | (now, req) :: rest =>
      match logged_click now req with
      | Some c => if String.eqb (click_key c) key then 1 else 0
      | None => 0
      end + logged_count rest key
  end.

(** Clicks recorded by [reqs] for [ad] on the given days. *)
Definition logged_total `{JsonNumber number} (reqs : list (Z * request number))
    (days : list string) (ad : string) : Z :=
  foldr (fun day s => logged_count reqs (stats_prefix day +:+ ad) + s) 0 days.

(** * Properties of the primitives *)

Lemma round_to_double_exact (z : Z) :
  Z.abs z <= 2 ^ 53 -> round_to_double z = Int z.
Proof.
  intros Hz. unfold round_to_double.
  destruct (Z.leb_spec (Z.abs z) (2 ^ 53)); [reflexivity | lia].
Qed.

Lemma digit_char_cases (d : Z) :
  0 <= d < 10 ->
  digit_value (digit_char d) = Some d /\
  is_whitespace (digit_char d) = false /\
  digit_char d <> "-"%char /\ digit_char d <> "+"%char.
Proof.
  intros Hd.
  assert (d = 0 \/ d = 1 \/ d = 2 \/ d = 3 \/ d = 4 \/
          d = 5 \/ d = 6 \/ d = 7 \/ d = 8 \/ d = 9) as Hc by lia.
  repeat (destruct Hc as [-> | Hc]); try subst d; repeat split; done.
Qed.

Lemma digit_value_digit_char (d : Z) :
  0 <= d < 10 -> digit_value (digit_char d) = Some d.
Proof. intros Hd. apply digit_char_cases, Hd. Qed.

(** Reading back the digits that [digits_go] put in front of [acc]. *)
Lemma parse_digits_go (fuel : nat) :
  forall n acc, 0 <= n < 10 ^ Z.of_nat fuel ->
    exists p, forall a,
      parse_digits (digits_go fuel n acc) a = parse_digits acc (a * p + n).
Proof.
  induction fuel as [| f IH]; intros n acc Hn.
  - exists 1. intros a. simpl in *. f_equal. lia.
  - cbn [digits_go].
    assert (Hmod : 0 <= n mod 10 < 10) by (apply Z.mod_pos_bound; lia).
    destruct (Z.ltb_spec n 10) as [Hlt | Hge].
    + exists 10. intros a. cbn [parse_digits].
      rewrite digit_value_digit_char by exact Hmod.
      rewrite Z.mod_small by lia. f_equal. lia.
    + destruct (IH (n / 10) (String (digit_char (n mod 10)) acc)) as [p Hp].
      { split; [apply Z.div_pos; lia |].
        apply Z.div_lt_upper_bound; [lia |].
        rewrite Nat2Z.inj_succ, Z.pow_succ_r in Hn by lia. lia. }
      exists (10 * p). intros a. rewrite Hp. cbn [parse_digits].
      rewrite digit_value_digit_char by exact Hmod.
      f_equal. pose proof (Z.div_mod n 10). lia.
Qed.

Lemma decimal_fuel (n : Z) :
  0 <= n -> 0 <= n < 10 ^ Z.of_nat (S (Z.to_nat (Z.log2 n))).
Proof.
  intros Hn. split; [exact Hn |].
  destruct (Z.eq_dec n 0) as [-> | Hnz]; [reflexivity |].
  rewrite Nat2Z.inj_succ, Z2Nat.id by apply Z.log2_nonneg.
  pose proof (Z.log2_spec n ltac:(lia)) as [_ Hlt].
  pose proof (Z.log2_nonneg n) as Hl.
  eapply Z.lt_le_trans; [exact Hlt |].
  apply Z.pow_le_mono_l. lia.
Qed.

Lemma parse_digits_decimal (n : Z) : 0 <= n -> parse_digits (decimal n) 0 = n.
Proof.
  intros Hn. unfold decimal.
  destruct (parse_digits_go _ n "" (decimal_fuel n Hn)) as [p Hp].
  rewrite Hp. reflexivity.
Qed.

(** The digits start with a digit. *)
Lemma digits_go_head (fuel : nat) :
  forall n acc, 0 <= n ->
    exists d rest, 0 <= d < 10 /\
      digits_go (S fuel) n acc = String (digit_char d) rest.
Proof.
  induction fuel as [| f IH]; intros n acc Hn.
  - exists (n mod 10). cbn [digits_go].
    assert (0 <= n mod 10 < 10) by (apply Z.mod_pos_bound; lia).
    destruct (n <? 10); eauto.
  - cbn [digits_go].
    assert (0 <= n mod 10 < 10) by (apply Z.mod_pos_bound; lia).
    destruct (Z.ltb_spec n 10); [eauto |].
    apply (IH (n / 10)). apply Z.div_pos; lia.
Qed.

Lemma decimal_head (n : Z) :
  0 <= n -> exists d rest, 0 <= d < 10 /\ decimal n = String (digit_char d) rest.
Proof. intros Hn. apply digits_go_head, Hn. Qed.

Lemma parseInt_decimal (n : Z) :
  0 <= n -> parseInt (decimal n) = round_to_double n.
Proof.
  intros Hn. pose proof (parse_digits_decimal n Hn) as Hp.
  destruct (decimal_head n Hn) as (d & rest & Hd & Heq).
  destruct (digit_char_cases d Hd) as (Hv & Hw & Hm & Hpl).
  unfold parseInt. rewrite Heq in *. cbn [trim_start]. rewrite Hw.
  destruct (digit_char d) as [b0 b1 b2 b3 b4 b5 b6 b7] eqn:Hc.
  assert (starts_with_digit (String (Ascii b0 b1 b2 b3 b4 b5 b6 b7) rest) = true) as Hs.
  { cbn [starts_with_digit]. rewrite Hv. by apply bool_decide_eq_true. }
  destruct b0, b1, b2, b3, b4, b5, b6, b7; try congruence;
    rewrite Hs, Hp; f_equal; lia.
Qed.

Lemma parseInt_negative (s : string) :
  parseInt (String "-" s) =
  if starts_with_digit s then round_to_double (- parse_digits s 0) else NaN.
Proof.
  unfold parseInt. cbn [trim_start].
  change (is_whitespace "-") with false. cbv iota.
  destruct (starts_with_digit s); [f_equal; lia | reflexivity].
Qed.

(** Printing a safe integer and parsing it again gives it back. *)
Lemma parseInt_Number_toString (z : Z) :
  Z.abs z <= 2 ^ 53 -> parseInt (Number_toString (Int z)) = Int z.
Proof.
  intros Hz. unfold Number_toString, magnitude_toString.
  destruct (Z.ltb_spec z 0) as [Hneg | Hpos].
  - destruct (Z.leb_spec (- z) (2 ^ 53)); [| lia].
    rewrite parseInt_negative.
    destruct (decimal_head (- z) ltac:(lia)) as (d & rest & Hd & Heq).
    rewrite parse_digits_decimal by lia. rewrite Heq.
    cbn [starts_with_digit]. rewrite digit_value_digit_char by exact Hd.
    rewrite bool_decide_eq_true_2 by eauto.
    rewrite round_to_double_exact by lia. f_equal. lia.
  - destruct (Z.leb_spec z (2 ^ 53)); [| lia].
    rewrite parseInt_decimal by lia. apply round_to_double_exact, Hz.
Qed.

(** * The metadata text *)

Lemma str_app_assoc (a b c : string) : (a +:+ b) +:+ c = a +:+ (b +:+ c).
Proof.
  induction a as [| x a IH]; [reflexivity |].
  change (String x ((a +:+ b) +:+ c) = String x (a +:+ (b +:+ c))).
  by rewrite IH.
Qed.

Lemma strip_prefix_app (p s : string) : strip_prefix p (p +:+ s) = Some s.
Proof.
  induction p as [| a p IH]; [by destruct s |].
  change (String a p +:+ s) with (String a (p +:+ s)). cbn [strip_prefix].
  by rewrite Ascii.eqb_refl.
Qed.

(** One character written by [quote_char] is read back as itself. *)
Lemma unquote_quote_char (c : ascii) (rest : string) :
  unquote_body (quote_char c +:+ rest) = push c (unquote_body rest).
Proof. destruct c as [[] [] [] [] [] [] [] []]; reflexivity. Qed.

Lemma unquote_quote_body (s rest : string) :
  unquote_body (quote_body s +:+ String dquote rest) = Some (s, rest).
Proof.
  induction s as [| c s IH]; [reflexivity |].
  cbn [quote_body]. rewrite str_app_assoc, unquote_quote_char, IH. reflexivity.
Qed.

Lemma quote_app (s rest : string) :
  quote s +:+ rest = String dquote (quote_body s +:+ String dquote rest).
Proof.
  unfold quote.
  change (String dquote (quote_body s +:+ String dquote "") +:+ rest)
    with (String dquote ((quote_body s +:+ String dquote "") +:+ rest)).
  by rewrite str_app_assoc.
Qed.

(** The text of [stringify_meta], member by member. *)
Lemma stringify_meta_members (g p u : string) :
  stringify_meta g p u =
  ("{" +:+ member_start "genre") +:+ (quote_body g +:+ String dquote
    (("," +:+ member_start "page_id") +:+ (quote_body p +:+ String dquote
       (("," +:+ member_start "page_url") +:+ (quote_body u +:+ String dquote "}"))))).
Proof.
  unfold stringify_meta. rewrite (quote_app g), (quote_app p), (quote_app u).
  reflexivity.
Qed.

(** Reading back the text written for a click gives its three fields:
    the text determines them, and nothing else is in it. *)
Lemma parse_stringify_meta (g p u : string) :
  parse_meta (stringify_meta g p u) = Some (g, p, u).
Proof.
  rewrite stringify_meta_members. unfold parse_meta.
  rewrite strip_prefix_app, unquote_quote_body.
  rewrite strip_prefix_app, unquote_quote_body.
  rewrite strip_prefix_app, unquote_quote_body.
  reflexivity.
Qed.

Lemma stringify_meta_inj (g p u g' p' u' : string) :
  stringify_meta g p u = stringify_meta g' p' u' -> g = g' /\ p = p' /\ u = u'.
Proof.
  intros Heq. pose proof (parse_stringify_meta g p u) as Hp.
  rewrite Heq, parse_stringify_meta in Hp. by injection Hp as -> -> ->.
Qed.

(** The text for plain fields, and for fields with characters that JSON
    escapes: a quote, a backslash, a line feed and the control character
    with code 1. *)
Lemma stringify_meta_plain :
  stringify_meta "sport" "" "/s" =
  "{" +:+ dq +:+ "genre" +:+ dq +:+ ":" +:+ dq +:+ "sport" +:+ dq +:+ "," +:+
  dq +:+ "page_id" +:+ dq +:+ ":" +:+ dq +:+ dq +:+ "," +:+
  dq +:+ "page_url" +:+ dq +:+ ":" +:+ dq +:+ "/s" +:+ dq +:+ "}".
Proof. reflexivity. Qed.

Lemma stringify_meta_escapes :
  stringify_meta ("a" +:+ dq +:+ "b\c") (String "010" (String "001" "")) "" =
  "{" +:+ dq +:+ "genre" +:+ dq +:+ ":" +:+ dq +:+ "a\" +:+ dq +:+ "b\\c" +:+ dq +:+ "," +:+
  dq +:+ "page_id" +:+ dq +:+ ":" +:+ dq +:+ "\n\u0001" +:+ dq +:+ "," +:+
  dq +:+ "page_url" +:+ dq +:+ ":" +:+ dq +:+ dq +:+ "}".
Proof. reflexivity. Qed.

(** * The [days] window of [GET /stats] *)

Lemma stats_days_range (q : option string) :
  exists z, stats_days q = Int z /\ 1 <= z <= 30.
Proof.
  unfold stats_days, num_or.
  destruct (parseInt (str_or q "7")) as [| | | z]; cbn;
    try (eexists; split; [reflexivity | lia]).
  destruct (Z.eqb_spec z 0); cbn; eexists; (split; [reflexivity | lia]).
Qed.

Lemma str_or_nonempty (s d : string) : s <> "" -> str_or (Some s) d = s.
Proof. destruct s; [congruence | reflexivity]. Qed.

Lemma stats_days_absent : stats_days None = Int 7.
Proof. reflexivity. Qed.

Lemma stats_days_falsy (s : string) :
  num_truthy (parseInt s) = false -> stats_days (Some s) = Int 7.
Proof.
  intros Hf. destruct s as [| c s]; [reflexivity |].
  unfold stats_days, num_or. cbn [str_or]. rewrite Hf. reflexivity.
Qed.

Lemma stats_days_clamped (s : string) (n : Z) :
  parseInt s = Int n -> n <> 0 ->
  stats_days (Some s) = Int (Z.max 1 (Z.min 30 n)).
Proof.
  intros Hp Hn. destruct s as [| c s]; [discriminate |].
  unfold stats_days, num_or. cbn [str_or]. rewrite Hp. cbn.
  destruct (Z.eqb_spec n 0); [contradiction |]. cbn. do 2 f_equal.
Qed.

Section DaysWindow.
Context `{JsonNumber number}.

(** The stats route reads the query parameter only through
    [stats_days]. *)
Lemma fetch_days_ext (env : environment) (now : Z) (m p : string)
    (a q1 q2 : option string) (b : option (json number)) (st : kv) :
  stats_days q1 = stats_days q2 ->
  fetch env now {| method := m; pathname := p; authorization := a;
                   days_param := q1; json_body := b |} st =
  fetch env now {| method := m; pathname := p; authorization := a;
                   days_param := q2; json_body := b |} st.
Proof.
  intros Hq. unfold fetch, isAuthed, handle_stats.
  cbn [method pathname authorization days_param json_body].
  rewrite Hq. reflexivity.
Qed.

(** C1, as the code has it: the window is 7 when [days] is absent, empty
    or parses to NaN or to zero, and otherwise the parsed integer clamped
    to [1, 30]; so [days=0] behaves as [days=7], [days=500] as [days=30],
    [days=abc] as [days=7] and a negative value as [days=1]. *)
Theorem stats_days_window :
  (forall q, exists z, stats_days q = Int z /\ 1 <= z <= 30) /\
  stats_days None = Int 7 /\
  (forall s, num_truthy (parseInt s) = false -> stats_days (Some s) = Int 7) /\
  (forall s n, parseInt s = Int n -> n <> 0 ->
     stats_days (Some s) = Int (Z.max 1 (Z.min 30 n))) /\
  (forall env now m p a (b : option (json number)) st,
     let req q := {| method := m; pathname := p; authorization := a;
                     days_param := q; json_body := b |} in
     fetch env now (req (Some "0")) st = fetch env now (req (Some "7")) st /\
     fetch env now (req (Some "500")) st = fetch env now (req (Some "30")) st /\
     fetch env now (req (Some "abc")) st = fetch env now (req (Some "7")) st /\
     fetch env now (req (Some "-5")) st = fetch env now (req (Some "1")) st /\
     fetch env now (req None) st = fetch env now (req (Some "7")) st).
Proof.
  split; [exact stats_days_range |].
  split; [exact stats_days_absent |].
  split; [exact stats_days_falsy |].
  split; [exact stats_days_clamped |].
  intros env now m p a b st req. unfold req.
  repeat split; apply fetch_days_ext; reflexivity.
Qed.
End DaysWindow.

(** [days=12abc] parses to 12, which lies inside the window. *)
Lemma stats_days_window_witness : stats_days (Some "12abc") = Int 12.
Proof.
  apply (proj1 (proj2 (proj2 (proj2 (stats_days_window (number := Z)))))
           "12abc" 12); [reflexivity | lia].
Defined.

(** C1 as stated fails: [days=0] does not behave as [days=1].  On the
    empty store the first answers with a window of 7 days, the second with
    a window of 1 day. *)
Lemma stats_days_zero_differs_from_one :
  (fetch sample_env sample_now (stats_request (Some "0")) empty_kv).1
    = Response 200 (StatsJson (Int 7) ∅) /\
  (fetch sample_env sample_now (stats_request (Some "1")) empty_kv).1
    = Response 200 (StatsJson (Int 1) ∅) /\
  fetch sample_env sample_now (stats_request (Some "0")) empty_kv <>
  fetch sample_env sample_now (stats_request (Some "1")) empty_kv.
Proof.
  assert (H0 : (fetch sample_env sample_now (stats_request (Some "0")) empty_kv).1
               = Response 200 (StatsJson (Int 7) ∅)) by (vm_compute; reflexivity).
  assert (H1 : (fetch sample_env sample_now (stats_request (Some "1")) empty_kv).1
               = Response 200 (StatsJson (Int 1) ∅)) by (vm_compute; reflexivity).
  split; [exact H0 |]. split; [exact H1 |].
  intros Heq. rewrite Heq, H1 in H0. discriminate H0.
Qed.

(** * Calls on the namespace *)

Lemma put_keys_app (l1 l2 : list kv_op) :
  put_keys (l1 ++ l2) = put_keys l1 ++ put_keys l2.
Proof. unfold put_keys. apply flat_map_app. Qed.

Lemma reads_only_refl (st : kv) : reads_only st st.
Proof. split; [reflexivity |]. exists []. by rewrite app_nil_r. Qed.

Lemma reads_only_trans (st1 st2 st3 : kv) :
  reads_only st1 st2 -> reads_only st2 st3 -> reads_only st1 st3.
Proof.
  intros [Hd1 (l1 & Ho1 & Hp1)] [Hd2 (l2 & Ho2 & Hp2)]. split; [congruence |].
  exists (l1 ++ l2). rewrite Ho2, Ho1, app_assoc, put_keys_app, Hp1, Hp2. done.
Qed.

Lemma called_reads_only (op : kv_op) (st : kv) :
  put_keys [op] = [] -> reads_only st (called op st).
Proof. intros Hop. split; [reflexivity |]. by exists [op]. Qed.

Lemma read_counter_eq (key : string) (st : kv) :
  read_counter key st = (counter_value (data st) key, called (OpGet key) st).
Proof. reflexivity. Qed.

Lemma add_keys_reads_only (prefix : string) (ks : list string) :
  forall acc st, reads_only st (add_keys prefix ks acc st).2.
Proof.
  induction ks as [| k rest IH]; intros acc st; [apply reads_only_refl |].
  cbn [add_keys]. unfold bind. rewrite read_counter_eq.
  eapply reads_only_trans; [| apply IH]. by apply called_reads_only.
Qed.

Lemma scan_reads_only (fuel : nat) (prefix : string) :
  forall cur acc st, reads_only st (scan fuel prefix cur acc st).2.
Proof.
  induction fuel as [| f IH]; intros cur acc st; [apply reads_only_refl |].
  cbn [scan]. unfold bind, kv_list. cbv zeta. cbn [keys cursor].
  set (st1 := called (OpList prefix cur) st).
  destruct (add_keys prefix _ acc st1) as [acc' st2] eqn:Hadd.
  assert (reads_only st st2) as Hr.
  { eapply reads_only_trans; [by apply (called_reads_only (OpList prefix cur)) |].
    fold st1. pose proof (add_keys_reads_only prefix
      (take list_limit (drop (default 0%nat cur) (matching_keys prefix (data st))))
      acc st1) as Ha.
    by rewrite Hadd in Ha. }
  destruct (decide _); [| exact Hr].
  eapply reads_only_trans; [exact Hr | apply IH].
Qed.

Lemma scan_days_reads_only (n : nat) :
  forall i now acc st, reads_only st (scan_days n i now acc st).2.
Proof.
  induction n as [| n IH]; intros i now acc st; [apply reads_only_refl |].
  cbn [scan_days]. destruct (day_string now i) as [day | e];
    [| apply reads_only_refl].
  unfold bind, scan_prefix.
  pose proof (scan_reads_only
    (S (length (matching_keys (stats_prefix day) (data st))))
    (stats_prefix day) None acc st) as Hs.
  destruct (scan _ _ None acc st) as [[acc' |] st1]; cbn [snd] in *.
  - eapply reads_only_trans; [exact Hs | apply IH].
  - exact Hs.
Qed.

Lemma handle_stats_reads_only (now : Z) (q : option string) (st : kv) :
  reads_only st (handle_stats now q st).2.
Proof.
  unfold handle_stats, bind.
  pose proof (scan_days_reads_only (rounds (stats_days q)) 0 (TimeClip now) ∅ st) as Hs.
  destruct (scan_days _ _ _ _ st) as [r st1]. exact Hs.
Qed.

(** ** Listings come to an end *)

Lemma list_limit_pos : (0 < list_limit)%nat.
Proof. unfold list_limit. lia. Qed.

Lemma scan_finishes (fuel : nat) (prefix : string) :
  forall cur acc st,
    (length (matching_keys prefix (data st)) - default 0 cur < fuel)%nat ->
    is_Some (scan fuel prefix cur acc st).1.
Proof.
  pose proof list_limit_pos as Hpos.
  induction fuel as [| f IH]; intros cur acc st Hlen; [lia |].
  cbn [scan]. unfold bind, kv_list. cbv zeta. cbn [keys cursor].
  set (st1 := called (OpList prefix cur) st).
  set (rest := drop (default 0%nat cur) (matching_keys prefix (data st))).
  pose proof (add_keys_reads_only prefix (take list_limit rest) acc st1) as [Hd _].
  destruct (add_keys prefix (take list_limit rest) acc st1) as [acc' st2].
  cbn [snd] in Hd. change (data st1) with (data st) in Hd.
  assert (length rest = length (matching_keys prefix (data st)) - default 0 cur)%nat
    as Hrest by apply length_drop.
  destruct (decide (list_limit < length rest)%nat) as [Hmore | Hdone]; [| by eexists].
  apply IH. rewrite Hd. change (default 0%nat (Some ?x)) with x. lia.
Qed.

Lemma scan_prefix_finishes (prefix : string) (acc : gmap string jsval) (st : kv) :
  is_Some (scan_prefix prefix acc st).1.
Proof. unfold scan_prefix. apply scan_finishes. cbn [default]. lia. Qed.

Lemma scan_days_finishes (n : nat) :
  forall i now acc st, (scan_days n i now acc st).1 <> Normal None.
Proof.
  induction n as [| n IH]; intros i now acc st; [discriminate |].
  cbn [scan_days]. destruct (day_string now i) as [day | e]; [| discriminate].
  unfold bind.
  pose proof (scan_prefix_finishes (stats_prefix day) acc st) as [acc' Hs].
  destruct (scan_prefix _ acc st) as [r st1]. cbn [fst] in Hs. subst r. apply IH.
Qed.

(** [GET /stats] never stops short of its last page. *)
Lemma handle_stats_finishes (now : Z) (q : option string) (st : kv) :
  (handle_stats now q st).1 <> Unfinished.
Proof.
  unfold handle_stats, bind.
  pose proof (scan_days_finishes (rounds (stats_days q)) 0 (TimeClip now) ∅ st) as Hs.
  destruct (scan_days _ _ _ _ st) as [[[acc |] | e] st1]; cbn in *; congruence.
Qed.

(** * Keys *)

Lemma counter_key_meta_key_ne (day ad ad' : string) :
  counter_key day ad <> meta_key ad'.
Proof. unfold counter_key, meta_key. cbv [String.append]. discriminate. Qed.

Lemma meta_key_inj (ad ad' : string) : meta_key ad = meta_key ad' -> ad = ad'.
Proof. unfold meta_key. apply (inj (String.append "meta:")). Qed.

Lemma counter_key_is_counter (day ad : string) :
  starts_with "click:" (counter_key day ad) = true.
Proof. reflexivity. Qed.

Lemma meta_key_not_counter (ad : string) :
  starts_with "click:" (meta_key ad) = false.
Proof. reflexivity. Qed.

(** * [POST /log] *)

Lemma record_click_eq (c : click) (st : kv) :
  let n := js_add (counter_value (data st) (click_key c)) (Int 1) in
  record_click c st =
  (Response 200 (Text "ok"),
   {| data := <[meta_key (ad_id c) := meta_entry c]>
                (<[click_key c := counter_entry n]> (data st));
      ops := ops st ++
             [OpGet (click_key c);
              OpPut (click_key c) (Number_toString n) None;
              OpPut (meta_key (ad_id c))
                    (stringify_meta (genre c) (page_id c) (page_url c))
                    (Some 2592000)] |}).
Proof.
  intros n. unfold record_click, bind, kv_put, ret. rewrite read_counter_eq.
  cbn [data ops called]. rewrite <- !app_assoc. reflexivity.
Qed.

Section Log.
Context `{JsonNumber number}.
Implicit Types (env : environment) (req : request number) (st : kv).

Lemma fetch_logged env now req st c :
  logged_click now req = Some c -> fetch env now req st = record_click c st.
Proof.
  unfold logged_click, fetch, handle_log.
  destruct (String.eqb (pathname req) "/log" && String.eqb (method req) "POST");
    [| discriminate].
  destruct (json_body req) as [b |]; [| discriminate].
  destruct (read_click now b) as [c' | e]; [| discriminate].
  destruct (String.eqb (ad_id c') ""); [discriminate |].
  intros [= ->]. reflexivity.
Qed.

Lemma fetch_not_logged env now req st :
  logged_click now req = None -> reads_only st (fetch env now req st).2.
Proof.
  unfold logged_click, fetch, handle_log.
  destruct (String.eqb (pathname req) "/log" && String.eqb (method req) "POST").
  - destruct (json_body req) as [b |]; [| intros _; apply reads_only_refl].
    destruct (read_click now b) as [c' | e]; [| intros _; apply reads_only_refl].
    destruct (String.eqb (ad_id c') ""); [intros _; apply reads_only_refl |].
    discriminate.
  - intros _.
    destruct (String.eqb (pathname req) "/stats" && String.eqb (method req) "GET");
      [| apply reads_only_refl].
    destruct (negb (isAuthed env req)); [apply reads_only_refl |].
    apply handle_stats_reads_only.
Qed.

(** On the log route, the answer is [200 ok] exactly for the requests
    that [logged_click] accepts. *)
Lemma log_ok_iff env now req st :
  pathname req = "/log" -> method req = "POST" ->
  (fetch env now req st).1 = Response 200 (Text "ok") <->
  is_Some (logged_click now req).
Proof.
  intros Hp Hm. split.
  - unfold logged_click, fetch, handle_log. rewrite Hp, Hm. cbn [andb String.eqb Ascii.eqb Bool.eqb].
    destruct (json_body req) as [b |]; [| discriminate].
    destruct (read_click now b) as [c' | e]; [| discriminate].
    destruct (String.eqb (ad_id c') ""); [discriminate | eauto].
  - intros [c Hc]. rewrite (fetch_logged _ _ _ _ _ Hc), record_click_eq. reflexivity.
Qed.

Lemma stats_reads_only env now req st :
  pathname req = "/stats" -> reads_only st (fetch env now req st).2.
Proof.
  intros Hp. apply fetch_not_logged. unfold logged_click. rewrite Hp. reflexivity.
Qed.
End Log.

Section LogFacts.
Context `{JsonNumber number}.
Implicit Types (env : environment) (req : request number) (st : kv).

(** The store after a request, in one equation. *)
Lemma fetch_data env now req st :
  data (fetch env now req st).2 =
  match logged_click now req with
  | Some c =>
      <[meta_key (ad_id c) := meta_entry c]>
        (<[click_key c :=
             counter_entry (js_add (counter_value (data st) (click_key c)) (Int 1))]>
           (data st))
  | None => data st
  end.
Proof.
  destruct (logged_click now req) as [c |] eqn:Hc.
  - rewrite (fetch_logged _ _ _ _ _ Hc), record_click_eq. reflexivity.
  - apply (fetch_not_logged env now req st Hc).
Qed.

Lemma read_click_inv now (b : json number) c :
  read_click now b = Normal c ->
  exists v1 v2 v3 v4 v5 s2 s3 s4 s5,
    get_field b "ts" = Normal v1 /\
    or_toString v1 (Date_toISOString (TimeClip now)) = Normal (ts c) /\
    get_field b "ad_id" = Normal v2 /\ or_toString v2 (Normal "") = Normal s2 /\
    get_field b "genre" = Normal v3 /\ or_toString v3 (Normal "") = Normal s3 /\
    get_field b "page_id" = Normal v4 /\ or_toString v4 (Normal "") = Normal s4 /\
    get_field b "page_url" = Normal v5 /\ or_toString v5 (Normal "") = Normal s5 /\
    ad_id c = str_take 120 s2 /\ genre c = str_take 80 s3 /\
    page_id c = str_take 80 s4 /\ page_url c = str_take 300 s5.
Proof.
  unfold read_click, cbind.
  destruct (get_field b "ts") as [v1 |]; [| discriminate].
  destruct (or_toString v1 _) as [s1 |] eqn:H1; [| discriminate].
  destruct (get_field b "ad_id") as [v2 |]; [| discriminate].
  destruct (or_toString v2 _) as [s2 |] eqn:H2; [| discriminate].
  destruct (get_field b "genre") as [v3 |]; [| discriminate].
  destruct (or_toString v3 _) as [s3 |] eqn:H3; [| discriminate].
  destruct (get_field b "page_id") as [v4 |]; [| discriminate].
  destruct (or_toString v4 _) as [s4 |] eqn:H4; [| discriminate].
  destruct (get_field b "page_url") as [v5 |]; [| discriminate].
  destruct (or_toString v5 _) as [s5 |] eqn:H5; [| discriminate].
  intros Heq. assert (Hc : c = {| ts := s1; ad_id := str_take 120 s2;
    genre := str_take 80 s3; page_id := str_take 80 s4;
    page_url := str_take 300 s5 |}) by congruence.
  subst c. cbn [ts ad_id genre page_id page_url].
  exists v1, v2, v3, v4, v5, s2, s3, s4, s5. repeat split; assumption || reflexivity.
Qed.

(** A body that gets as far as the [ad_id] check with an empty [ad_id]
    is answered with 400. *)
Lemma log_missing_ad_id env now req st b c :
  pathname req = "/log" -> method req = "POST" ->
  json_body req = Some b -> read_click now b = Normal c -> ad_id c = "" ->
  fetch env now req st = (Response 400 (Text "missing ad_id"), st).
Proof.
  intros Hp Hm Hb Hc Ha. unfold fetch, handle_log.
  rewrite Hp, Hm, Hb, Hc, Ha. reflexivity.
Qed.

(** An [ad_id] member that is falsy counts as no [ad_id]. *)
Lemma falsy_ad_id_is_empty now (b : json number) c v :
  read_click now b = Normal c ->
  get_field b "ad_id" = Normal v ->
  (forall x, v = Some x -> truthy x = false) ->
  ad_id c = "".
Proof.
  intros Hc Hv Hf. apply read_click_inv in Hc.
  destruct Hc as (v1 & v2 & v3 & v4 & v5 & s2 & s3 & s4 & s5 & _ & _ & Hv2 & Hs2 & Hrest).
  destruct Hrest as (_ & _ & _ & _ & _ & _ & -> & _).
  rewrite Hv in Hv2. injection Hv2 as <-.
  unfold or_toString in Hs2. destruct v as [x |].
  - rewrite (Hf x eq_refl) in Hs2. by injection Hs2 as <-.
  - by injection Hs2 as <-.
Qed.

(** Whatever [POST /log] answers other than [200 ok], it has not touched
    the namespace. *)
Lemma log_rejected_untouched env now req st :
  pathname req = "/log" -> method req = "POST" ->
  (fetch env now req st).1 <> Response 200 (Text "ok") ->
  (fetch env now req st).2 = st.
Proof.
  intros Hp Hm. unfold fetch, handle_log. rewrite Hp, Hm.
  cbn [andb String.eqb Ascii.eqb Bool.eqb].
  destruct (json_body req) as [b |]; [| reflexivity].
  destruct (read_click now b) as [c |]; [| reflexivity].
  destruct (String.eqb (ad_id c) ""); [reflexivity |].
  rewrite record_click_eq. cbn [fst]. congruence.
Qed.

(** C9: a [POST /log] answered with [200 ok] puts two keys, the counter
    key and the metadata key of its click, and every other key keeps its
    entry; a [GET /stats], authorized or not, puts no key and leaves the
    store as it was. *)
Theorem log_and_stats_frame env now req st :
  let st' := (fetch env now req st).2 in
  let calls := drop (length (ops st)) (ops st') in
  (pathname req = "/log" -> method req = "POST" ->
   (fetch env now req st).1 = Response 200 (Text "ok") ->
   exists c, logged_click now req = Some c /\
     put_keys calls = [click_key c; meta_key (ad_id c)] /\
     click_key c <> meta_key (ad_id c) /\
     is_Some (data st' !! click_key c) /\
     is_Some (data st' !! meta_key (ad_id c)) /\
     forall k, k <> click_key c -> k <> meta_key (ad_id c) ->
       data st' !! k = data st !! k) /\
  (pathname req = "/stats" -> method req = "GET" ->
   put_keys calls = [] /\ data st' = data st).
Proof.
  intros st' calls. split.
  - intros Hp Hm Hok. apply log_ok_iff in Hok as [c Hc]; [| done | done].
    exists c. subst calls st'. rewrite (fetch_logged _ _ _ _ _ Hc), record_click_eq.
    cbn [snd data ops]. rewrite drop_app_length.
    split; [done |]. split; [reflexivity |].
    split; [apply counter_key_meta_key_ne |].
    split; [rewrite lookup_insert_ne, lookup_insert_eq;
            [by eexists | by apply not_eq_sym, counter_key_meta_key_ne] |].
    split; [rewrite lookup_insert_eq; by eexists |].
    intros k Hk1 Hk2. by rewrite !lookup_insert_ne.
  - intros Hp _. destruct (stats_reads_only env now req st Hp) as [Hd (l & Ho & Hl)].
    subst calls st'. rewrite Ho, drop_app_length. done.
Qed.

(** C4: without a configured secret, or with an Authorization header
    other than [Bearer <secret>], [GET /stats] answers [401
    unauthorized] and makes no call on the namespace, whatever the query
    parameters are. *)
Theorem stats_unauthorized env now req st :
  pathname req = "/stats" -> method req = "GET" ->
  (STATS_TOKEN env = None \/
   exists secret, STATS_TOKEN env = Some secret /\
     authorization req <> Some ("Bearer " +:+ secret)) ->
  fetch env now req st = (Response 401 (Text "unauthorized"), st).
Proof.
  intros Hp Hm Hauth. unfold fetch. rewrite Hp, Hm.
  cbn [andb String.eqb Ascii.eqb Bool.eqb].
  assert (isAuthed env req = false) as ->; [| reflexivity].
  unfold isAuthed. destruct Hauth as [-> | (secret & -> & Hne)]; [reflexivity |].
  destruct secret as [| c t]; [reflexivity |].
  apply String.eqb_neq. intros Heq. apply Hne.
  destruct (authorization req) as [[| a s] |]; cbn [str_or] in Heq;
    [discriminate Heq | by rewrite Heq | discriminate Heq].
Qed.
End LogFacts.

(** * Counters *)

Lemma counter_value_missing (d : gmap string entry) (key : string) :
  d !! key = None -> counter_value d key = Int 0.
Proof. intros Hk. unfold counter_value. rewrite Hk. reflexivity. Qed.

Lemma counter_value_not_numeric (d : gmap string entry) (key : string) (e : entry) :
  d !! key = Some e -> parseInt (value e) = NaN -> counter_value d key = Int 0.
Proof.
  intros Hk Hp. unfold counter_value. rewrite Hk. cbn [fmap option_fmap option_map].
  destruct (value e) as [| c s]; [reflexivity |].
  cbn [str_or]. rewrite Hp. reflexivity.
Qed.

Lemma Number_toString_safe (z : Z) :
  0 <= z <= 2 ^ 53 -> Number_toString (Int z) = decimal z.
Proof.
  intros Hz. unfold Number_toString, magnitude_toString.
  destruct (Z.ltb_spec z 0); [lia |].
  destruct (Z.leb_spec z (2 ^ 53)); [reflexivity | lia].
Qed.

Lemma Number_toString_nonempty (z : Z) :
  Z.abs z <= 2 ^ 53 -> Number_toString (Int z) <> "".
Proof.
  intros Hz. unfold Number_toString. destruct (Z.ltb_spec z 0); [discriminate |].
  unfold magnitude_toString. destruct (Z.leb_spec z (2 ^ 53)); [| lia].
  destruct (decimal_head z ltac:(lia)) as (d & rest & _ & ->). discriminate.
Qed.

(** A safe integer that was written is read back as it was. *)
Lemma counter_value_written (d : gmap string entry) (key : string) (z : Z) :
  Z.abs z <= 2 ^ 53 ->
  d !! key = Some (counter_entry (Int z)) -> counter_value d key = Int z.
Proof.
  intros Hz Hk. unfold counter_value. rewrite Hk.
  cbn [fmap option_fmap option_map counter_entry value].
  rewrite str_or_nonempty by (apply Number_toString_nonempty, Hz).
  rewrite parseInt_Number_toString by exact Hz.
  unfold num_or, num_truthy. destruct (Z.eqb_spec z 0); [by subst | reflexivity].
Qed.

Lemma js_add_one_safe (z : Z) :
  - 2 ^ 53 <= z < 2 ^ 53 -> js_add (Int z) (Int 1) = Int (z + 1).
Proof. intros Hz. cbn [js_add]. apply round_to_double_exact. lia. Qed.

Section Counting.
Context `{JsonNumber number}.
Implicit Types (env : environment) (req : request number) (st : kv).

Lemma serve_app env (l1 l2 : list (Z * request number)) st :
  serve env (l1 ++ l2) st = serve env l2 (serve env l1 st).
Proof.
  revert st. induction l1 as [| [now req] l1 IH]; intros st; [reflexivity |].
  cbn [serve app]. apply IH.
Qed.

Lemma log_step env now req st c (z : Z) :
  logged_click now req = Some c ->
  counter_value (data st) (click_key c) = Int z ->
  - 2 ^ 53 <= z < 2 ^ 53 ->
  data (fetch env now req st).2 !! click_key c = Some (counter_entry (Int (z + 1))).
Proof.
  intros Hc Hv Hz. rewrite fetch_data, Hc, Hv, js_add_one_safe by exact Hz.
  rewrite lookup_insert_ne by apply not_eq_sym, counter_key_meta_key_ne.
  apply lookup_insert_eq.
Qed.

Lemma serve_counts env (reqs : list (Z * request number)) (day ad : string) :
  Forall (fun r => exists c, logged_click r.1 r.2 = Some c /\
                    str_take 10 (ts c) = day /\ ad_id c = ad) reqs ->
  forall st z,
    counter_value (data st) (counter_key day ad) = Int z ->
    - 2 ^ 53 <= z -> z + Z.of_nat (length reqs) <= 2 ^ 53 ->
    counter_value (data (serve env reqs st)) (counter_key day ad)
      = Int (z + Z.of_nat (length reqs)) /\
    (reqs <> [] ->
     data (serve env reqs st) !! counter_key day ad
       = Some (counter_entry (Int (z + Z.of_nat (length reqs))))).
Proof.
  induction 1 as [| [now req] rest (c & Hc & Hday & Had) _ IH]; intros st z Hv Hlo Hhi.
  - cbn [serve length]. rewrite Z.add_0_r. by split.
  - cbn [fst snd] in Hc. cbn [length] in Hhi. rewrite Nat2Z.inj_succ in Hhi.
    assert (Hkey : click_key c = counter_key day ad)
      by (unfold click_key; congruence).
    pose proof (log_step env now req st c z Hc) as Hstep.
    rewrite Hkey in Hstep. specialize (Hstep Hv ltac:(lia)).
    cbn [serve]. set (st1 := (fetch env now req st).2) in *.
    assert (Hv1 : counter_value (data st1) (counter_key day ad) = Int (z + 1))
      by (apply counter_value_written; [lia | exact Hstep]).
    destruct (IH st1 (z + 1) Hv1 ltac:(lia) ltac:(lia)) as [IH1 IH2].
    replace (z + Z.of_nat (length ((now, req) :: rest)))
      with (z + 1 + Z.of_nat (length rest)) by (cbn [length]; lia).
    split; [exact IH1 |].
    intros _. destruct rest as [| r rest']; [| by apply IH2].
    cbn [serve length]. rewrite Z.add_0_r. exact Hstep.
Qed.

(** C3, within the range of exact counting: a [POST /log] that passes
    validation reads the counter of its (day, ad_id), a missing or
    non-numeric value as 0, adds one and writes the sum back in decimal;
    [N] such requests in a row for one (day, ad_id) raise the counter by
    exactly [N], as long as it starts at [-2^53] or above and ends at
    [2^53] or below. *)
Theorem log_counts env (reqs : list (Z * request number)) (day ad : string) st (z : Z) :
  Forall (fun r => exists c, logged_click r.1 r.2 = Some c /\
                    str_take 10 (ts c) = day /\ ad_id c = ad) reqs ->
  counter_value (data st) (counter_key day ad) = Int z ->
  - 2 ^ 53 <= z -> z + Z.of_nat (length reqs) <= 2 ^ 53 ->
  let st' := serve env reqs st in
  let total := z + Z.of_nat (length reqs) in
  (data st !! counter_key day ad = None -> z = 0) /\
  (forall e, data st !! counter_key day ad = Some e ->
             parseInt (value e) = NaN -> z = 0) /\
  counter_value (data st') (counter_key day ad) = Int total /\
  (reqs <> [] ->
   data st' !! counter_key day ad =
     Some {| value := Number_toString (Int total); expirationTtl := None |}) /\
  (0 <= total -> Number_toString (Int total) = decimal total).
Proof.
  intros Hreqs Hv Hlo Hhi st' total.
  destruct (serve_counts env reqs day ad Hreqs st z Hv Hlo Hhi) as [Hcount Hentry].
  split; [intros Hnone; rewrite counter_value_missing in Hv by exact Hnone;
          congruence |].
  split; [intros e He Hnan;
          rewrite (counter_value_not_numeric _ _ e He Hnan) in Hv; congruence |].
  split; [exact Hcount |]. split; [exact Hentry |].
  intros Htotal. apply Number_toString_safe. subst total. lia.
Qed.
End Counting.

(** Three clicks on one ad in one day, counted from the empty store. *)
Lemma log_counts_witness :
  let click := log_request (Some (JObj [("ad_id", JStr "a1")])) in
  let reqs := [(sample_now, click); (sample_now + 1, click); (sample_now + 2, click)] in
  counter_value (data (serve sample_env reqs empty_kv)) (counter_key "2024-01-02" "a1")
    = Int 3.
Proof.
  intros click reqs.
  refine (proj1 (proj2 (proj2
            (log_counts sample_env reqs "2024-01-02" "a1" empty_kv 0 _ _ _ _)))).
  - repeat constructor; eexists; (split; [vm_compute; reflexivity | split; reflexivity]).
  - reflexivity.
  - lia.
  - vm_compute. discriminate.
Defined.

(** C3 as stated fails at [2^53]: the counter reads 9007199254740992
    before the click and still 9007199254740992 after it. *)
Lemma log_stuck_at_2_53 :
  let st := store_of [("click:2024-01-02:a1", "9007199254740992")] in
  let req := log_request (Some (JObj [("ad_id", JStr "a1")])) in
  let st' := (fetch sample_env sample_now req st).2 in
  (fetch sample_env sample_now req st).1 = Response 200 (Text "ok") /\
  counter_value (data st) "click:2024-01-02:a1" = Int 9007199254740992 /\
  counter_value (data st') "click:2024-01-02:a1" = Int 9007199254740992 /\
  value <$> data st' !! "click:2024-01-02:a1" = Some "9007199254740992".
Proof. vm_compute. repeat split; reflexivity. Qed.

(** * The counter invariant *)

Lemma all_digits_digits_go (fuel : nat) :
  forall n acc, 0 <= n -> all_digits acc = true ->
    all_digits (digits_go fuel n acc) = true.
Proof.
  induction fuel as [| f IH]; intros n acc Hn Hacc; [exact Hacc |].
  cbn [digits_go].
  assert (Hd : all_digits (String (digit_char (n mod 10)) acc) = true).
  { cbn [all_digits]. rewrite digit_value_digit_char
      by (apply Z.mod_pos_bound; lia).
    rewrite bool_decide_eq_true_2 by eauto. exact Hacc. }
  destruct (n <? 10); [exact Hd |].
  apply IH; [apply Z.div_pos; lia | exact Hd].
Qed.

Lemma decimal_string_decimal (n : Z) : 0 <= n -> decimal_string (decimal n) = true.
Proof.
  intros Hn. unfold decimal_string. apply andb_true_intro. split.
  - destruct (decimal_head n Hn) as (d & rest & _ & ->). reflexivity.
  - unfold decimal. by apply all_digits_digits_go.
Qed.

Lemma parse_digits_lower (s : string) :
  forall acc, 0 <= acc -> acc <= parse_digits s acc.
Proof.
  induction s as [| c s IH]; intros acc Hacc; cbn [parse_digits]; [lia |].
  unfold digit_value. destruct (_ && _) eqn:Hc; [| lia].
  apply andb_prop in Hc as [Hlo%Z.leb_le Hhi%Z.leb_le].
  etrans; [| apply IH; lia]. lia.
Qed.

Lemma digit_not_sign_or_space (c : ascii) (d : Z) :
  digit_value c = Some d ->
  is_whitespace c = false /\ c <> "-"%char /\ c <> "+"%char.
Proof.
  destruct c as [[] [] [] [] [] [] [] []]; vm_compute; intros ?;
    repeat split; congruence.
Qed.

Lemma parseInt_decimal_string (s : string) :
  decimal_string s = true -> parseInt s = round_to_double (parse_digits s 0).
Proof.
  unfold decimal_string. intros [Hne Hall]%andb_prop.
  destruct s as [| c s]; [discriminate |]. cbn [all_digits] in Hall.
  apply andb_prop in Hall as [[d Hd]%bool_decide_eq_true _].
  destruct (digit_not_sign_or_space c d Hd) as (Hw & Hm & Hp).
  assert (Hs : starts_with_digit (String c s) = true).
  { cbn [starts_with_digit]. apply bool_decide_eq_true. eauto. }
  unfold parseInt. cbn [trim_start]. rewrite Hw.
  destruct c as [[] [] [] [] [] [] [] []]; try congruence;
    rewrite Hs; f_equal; lia.
Qed.

(** What an entry that satisfies the invariant reads as. *)
Lemma counter_value_bounded (d : gmap string entry) (key : string) :
  counters_ok d -> counters_bounded d -> starts_with "click:" key = true ->
  exists p, counter_value d key = Int p /\ 0 <= p <= 2 ^ 53.
Proof.
  intros Hok Hb Hkey. destruct (d !! key) as [e |] eqn:He.
  - destruct (Hok key e He Hkey) as [Hdec _]. specialize (Hb key e He Hkey).
    pose proof (parse_digits_lower (value e) 0 ltac:(lia)) as Hlo.
    exists (parse_digits (value e) 0). split; [| lia].
    unfold counter_value. rewrite He. cbn [fmap option_fmap option_map].
    assert (value e <> "") as Hne by (intros Heq; by rewrite Heq in Hdec).
    rewrite str_or_nonempty by exact Hne.
    rewrite parseInt_decimal_string by exact Hdec.
    rewrite round_to_double_exact by lia.
    unfold num_or, num_truthy. destruct (Z.eqb_spec (parse_digits (value e) 0) 0) as [-> |]; done.
  - exists 0. split; [by apply counter_value_missing | lia].
Qed.

(** Adding one to a count of at most [2^53] gives a count of at most
    [2^53]: at the bound the sum rounds back to it. *)
Lemma js_add_one_bounded (p : Z) :
  0 <= p <= 2 ^ 53 -> exists m, js_add (Int p) (Int 1) = Int m /\ 1 <= m <= 2 ^ 53.
Proof.
  intros Hp. destruct (Z.eq_dec p (2 ^ 53)) as [-> | Hne].
  - exists (2 ^ 53). split; [vm_compute; reflexivity | lia].
  - exists (p + 1). split; [apply js_add_one_safe; lia | lia].
Qed.

Lemma counters_ok_empty : counters_ok ∅ /\ counters_bounded ∅.
Proof. split; intros key e He; by rewrite lookup_empty in He. Qed.

Section Invariant.
Context `{JsonNumber number}.
Implicit Types (env : environment) (req : request number) (st : kv).

Lemma logged_click_ad_id now req c : logged_click now req = Some c -> ad_id c <> "".
Proof.
  unfold logged_click. destruct (_ && _); [| discriminate].
  destruct (json_body req) as [b |]; [| discriminate].
  destruct (read_click now b) as [c' |]; [| discriminate].
  destruct (String.eqb_spec (ad_id c') ""); [discriminate |].
  by intros [= <-].
Qed.

Lemma fetch_keeps_counters env now req st :
  counters_ok (data st) -> counters_bounded (data st) ->
  counters_ok (data (fetch env now req st).2) /\
  counters_bounded (data (fetch env now req st).2).
Proof.
  intros Hok Hb. rewrite fetch_data.
  destruct (logged_click now req) as [c |] eqn:Hc; [| by split].
  destruct (counter_value_bounded (data st) (click_key c) Hok Hb
              (counter_key_is_counter _ _)) as (p & -> & Hp).
  destruct (js_add_one_bounded p Hp) as (m & -> & Hm).
  assert (Hentry : forall key e,
    <[meta_key (ad_id c) := meta_entry c]>
      (<[click_key c := counter_entry (Int m)]> (data st)) !! key = Some e ->
    starts_with "click:" key = true ->
    (key = click_key c /\ e = counter_entry (Int m)) \/ data st !! key = Some e).
  { intros key e He Hkey.
    destruct (decide (key = meta_key (ad_id c))) as [-> | Hne1];
      [by rewrite meta_key_not_counter in Hkey |].
    rewrite lookup_insert_ne in He by done.
    destruct (decide (key = click_key c)) as [-> | Hne2].
    - rewrite lookup_insert_eq in He. left. split; congruence.
    - rewrite lookup_insert_ne in He by done. by right. }
  assert (Hval : value (counter_entry (Int m)) = decimal m)
    by (apply Number_toString_safe; lia).
  split; intros key e He Hkey;
    destruct (Hentry key e He Hkey) as [[-> ->] | Hold]; eauto.
  - split; [rewrite Hval; apply decimal_string_decimal; lia |].
    exists (str_take 10 (ts c)), (ad_id c). split; [reflexivity |].
    by eapply logged_click_ad_id.
  - rewrite Hval, parse_digits_decimal; lia.
Qed.

Lemma serve_keeps_counters env (reqs : list (Z * request number)) :
  forall st, counters_ok (data st) -> counters_bounded (data st) ->
    counters_ok (data (serve env reqs st)) /\
    counters_bounded (data (serve env reqs st)).
Proof.
  induction reqs as [| [now req] rest IH]; intros st Hok Hb; [by split |].
  cbn [serve]. destruct (fetch_keeps_counters env now req st Hok Hb). by apply IH.
Qed.



End Invariant.


(** The invariant is not inductive by itself.  A store that holds
    decimal counters only, but that no requests lead to from the empty
    store, can lose that with one click: at [10^21] the sum is printed in
    exponent notation, and the click after that reads it as 1. *)
Lemma counters_ok_not_preserved :
  let st := store_of [("click:2024-01-02:a1", "1000000000000000000000")] in
  let req := log_request (Some (JObj [("ad_id", JStr "a1")])) in
  let st' := (fetch sample_env sample_now req st).2 in
  let st'' := (fetch sample_env sample_now req st').2 in
  counters_ok (data st) /\
  value <$> data st' !! "click:2024-01-02:a1" = Some "1e+21" /\
  value <$> data st'' !! "click:2024-01-02:a1" = Some "2" /\
  ~ counters_ok (data st').
Proof.
  intros st req st' st''.
  assert (Hv : data st' !! "click:2024-01-02:a1"
               = Some {| value := "1e+21"; expirationTtl := None |})
    by (vm_compute; reflexivity).
  split; [| split; [| split]].
  - intros key e He Hkey. subst st. cbn [store_of data map list_to_map foldr] in He.
    destruct (decide (key = "click:2024-01-02:a1")) as [-> | Hne].
    + rewrite lookup_insert_eq in He. injection He as <-.
      split; [reflexivity |]. exists "2024-01-02", "a1". split; [reflexivity | discriminate].
    + rewrite lookup_insert_ne, lookup_empty in He by done. discriminate.
  - by rewrite Hv.
  - vm_compute. reflexivity.
  - intros Hok. destruct (Hok _ _ Hv eq_refl) as [Hdec _]. discriminate Hdec.
Qed.

(** * Day buckets and metadata *)

Section Records.
Context `{JsonNumber number}.
Implicit Types (env : environment) (req : request number) (st : kv).

(** The timestamp and the day bucket of a [POST /log] whose body parses,
    whose members coerce without an exception and whose [ad_id] is not
    empty: the timestamp is the [ts] member turned into a string, or the
    current instant in ISO form when [ts] is absent or falsy; the day
    bucket is its first 10 characters, whatever they are, and the counter
    that is read and written is the one under [click:<day>:<ad_id>]. *)
Lemma log_day_bucket env now req st b c :
  pathname req = "/log" -> method req = "POST" ->
  json_body req = Some b -> read_click now b = Normal c -> ad_id c <> "" ->
  (exists v, get_field b "ts" = Normal v /\
     match v with
     | Some x => if truthy x then toString x = Normal (ts c)
                 else Date_toISOString (TimeClip now) = Normal (ts c)
     | None => Date_toISOString (TimeClip now) = Normal (ts c)
     end) /\
  let day := str_take 10 (ts c) in
  let key := "click:" +:+ day +:+ ":" +:+ ad_id c in
  let n := js_add (counter_value (data st) key) (Int 1) in
  fetch env now req st =
  (Response 200 (Text "ok"),
   {| data := <[meta_key (ad_id c) := meta_entry c]>
                (<[key := counter_entry n]> (data st));
      ops := ops st ++
             [OpGet key;
              OpPut key (Number_toString n) None;
              OpPut (meta_key (ad_id c))
                    (stringify_meta (genre c) (page_id c) (page_url c))
                    (Some 2592000)] |}).
Proof.
  intros Hp Hm Hb Hc Ha. split.
  - destruct (read_click_inv now b c Hc) as (v1 & ? & ? & ? & ? & ? & ? & ? & ? & Hv & Hts & _).
    exists v1. split; [exact Hv |]. unfold or_toString in Hts.
    destruct v1 as [w |]; [destruct (truthy w) |]; exact Hts.
  - intros day key n. rewrite (fetch_logged env now req st c).
    + apply record_click_eq.
    + unfold logged_click. rewrite Hp, Hm, Hb, Hc.
      by destruct (String.eqb_spec (ad_id c) "").
Qed.

(** C7: a [POST /log] that passes validation, whatever was served
    before it, leaves under [meta:<ad_id>] the entry that it writes
    itself: the JSON text of its own genre, page_id and page_url, put
    with a TTL of 30 days as the last call of the request.  Read back,
    that text gives these three strings and nothing else, so nothing of
    an earlier click is in it. *)
Theorem meta_is_last_click env (before : list (Z * request number)) now req c st :
  logged_click now req = Some c ->
  let st' := serve env (before ++ [(now, req)]) st in
  let text := stringify_meta (genre c) (page_id c) (page_url c) in
  data st' !! ("meta:" +:+ ad_id c) =
    Some {| value := text; expirationTtl := Some (30 * 86400) |} /\
  last (ops st') = Some (OpPut ("meta:" +:+ ad_id c) text (Some (30 * 86400))) /\
  parse_meta text = Some (genre c, page_id c, page_url c).
Proof.
  intros Hc st' text. subst st'. rewrite serve_app. cbn [serve].
  set (st0 := serve env before st).
  split; [rewrite fetch_data, Hc; apply lookup_insert_eq |].
  split; [| apply parse_stringify_meta].
  rewrite (fetch_logged env now req st0 c Hc), record_click_eq. cbn [snd ops].
  rewrite last_app. reflexivity.
Qed.
End Records.

(** A click with a timestamp that is no date: the bucket is its first 10
    characters. *)
Lemma log_day_bucket_witness :
  let b := JObj [("ad_id", JStr "a1"); ("ts", JStr "not a timestamp")] in
  value <$> data (fetch sample_env sample_now (log_request (Some b)) empty_kv).2
            !! "click:not a time:a1" = Some "1".
Proof.
  intros b.
  pose proof (log_day_bucket sample_env sample_now (log_request (Some b)) empty_kv b
    {| ts := "not a timestamp"; ad_id := "a1"; genre := ""; page_id := ""; page_url := "" |}
    eq_refl eq_refl eq_refl eq_refl ltac:(discriminate)) as [_ Heq].
  cbv zeta in Heq. rewrite Heq. reflexivity.
Defined.

(** Two clicks on one ad from different pages: the second page is what
    the metadata shows, and the genre and page_id of the first click are
    gone. *)
Lemma meta_is_last_click_witness :
  let first := log_request (Some (JObj [("ad_id", JStr "a1"); ("genre", JStr "news");
                                        ("page_id", JStr "p1")])) in
  let second := log_request (Some (JObj [("ad_id", JStr "a1"); ("genre", JStr "sport");
                                         ("page_url", JStr "/s")])) in
  let st' := serve sample_env ([(sample_now, first)] ++ [(sample_now + 5, second)])
               empty_kv in
  let text :=
    "{" +:+ dq +:+ "genre" +:+ dq +:+ ":" +:+ dq +:+ "sport" +:+ dq +:+ "," +:+
    dq +:+ "page_id" +:+ dq +:+ ":" +:+ dq +:+ dq +:+ "," +:+
    dq +:+ "page_url" +:+ dq +:+ ":" +:+ dq +:+ "/s" +:+ dq +:+ "}" in
  data st' !! "meta:a1" = Some {| value := text; expirationTtl := Some 2592000 |} /\
  last (ops st') = Some (OpPut "meta:a1" text (Some 2592000)) /\
  parse_meta text = Some ("sport", "", "/s").
Proof.
  intros first second st' text.
  refine (meta_is_last_click sample_env [(sample_now, first)] (sample_now + 5) second
            {| ts := "2024-01-02T12:00:00.005Z"; ad_id := "a1"; genre := "sport";
               page_id := ""; page_url := "/s" |} empty_kv _).
  vm_compute. reflexivity.
Defined.

(** * Falsy members *)

Lemma own_property_without_other {A} (name k : string) (members : list (string * A)) :
  name <> k -> own_property name (without_member k members) = own_property name members.
Proof.
  intros Hne. unfold without_member.
  induction members as [| [k' v] rest IH]; [reflexivity |].
  rewrite filter_cons. cbn [fst own_property]. destruct (decide (k' <> k)) as [Hk | Hk].
  - cbn [own_property]. by rewrite IH.
  - rewrite IH. apply dec_stable in Hk. subst k'.
    destruct (own_property name rest); [reflexivity |].
    by destruct (String.eqb_spec k name); [congruence |].
Qed.

Lemma own_property_without_same {A} (k : string) (members : list (string * A)) :
  own_property k (without_member k members) = None.
Proof.
  unfold without_member. induction members as [| [k' v] rest IH]; [reflexivity |].
  rewrite filter_cons. cbn [fst]. destruct (decide (k' <> k)) as [Hk | Hk]; [| exact IH].
  cbn [own_property]. rewrite IH. by destruct (String.eqb_spec k' k).
Qed.

(** A body whose [ad_id] member is falsy is handled as the same body
    without that member, whatever the outcome. *)
Lemma falsy_ad_id_as_absent `{JsonNumber number} (env : environment) (now : Z)
    (m p : string) (a q : option string) (members : list (string * json number))
    (v : json number) (st : kv) :
  own_property "ad_id" members = Some v -> truthy v = false ->
  fetch env now {| method := m; pathname := p; authorization := a; days_param := q;
                   json_body := Some (JObj members) |} st =
  fetch env now {| method := m; pathname := p; authorization := a; days_param := q;
                   json_body := Some (JObj (without_member "ad_id" members)) |} st.
Proof.
  intros Hv Hf.
  assert (Hread : read_click now (JObj members)
                  = read_click now (JObj (without_member "ad_id" members))).
  { unfold read_click, get_field, cbind.
    rewrite own_property_without_same, Hv.
    rewrite !own_property_without_other by discriminate.
    unfold or_toString at 2 7. rewrite Hf. reflexivity. }
  unfold fetch, isAuthed, handle_log.
  cbn [method pathname authorization days_param json_body].
  rewrite Hread. reflexivity.
Qed.

(** * [GET /stats]: what the scan adds up *)

Lemma starts_with_split (p s : string) :
  starts_with p s = true -> s = p +:+ str_drop (String.length p) s.
Proof.
  revert s. induction p as [| a p IH]; intros s Hs; [reflexivity |].
  destruct s as [| b s]; [discriminate |]. cbn [starts_with] in Hs.
  destruct (decide (a = b)) as [-> |]; [| discriminate].
  cbn [String.length str_drop]. change (String b p +:+ ?r) with (String b (p +:+ r)).
  f_equal. by apply IH.
Qed.

Lemma starts_with_app (p r : string) : starts_with p (p +:+ r) = true.
Proof.
  induction p as [| a p IH]; [reflexivity |].
  change (String a p +:+ r) with (String a (p +:+ r)). cbn [starts_with].
  by rewrite decide_True.
Qed.

Lemma str_drop_app (p r : string) : str_drop (String.length p) (p +:+ r) = r.
Proof. induction p as [| a p IH]; [by destruct r | exact IH]. Qed.

(** ** The keys of a listing *)

Lemma elem_of_matching_keys (prefix k : string) (d : gmap string entry) :
  k ∈ matching_keys prefix d <-> starts_with prefix k = true /\ is_Some (d !! k).
Proof.
  unfold matching_keys. rewrite list_elem_of_filter, merge_sort_Permutation.
  rewrite Is_true_true, list_elem_of_fmap. apply and_iff_compat_l. split.
  - intros ([k' e] & -> & He%elem_of_map_to_list). by eexists.
  - intros [e He]. exists (k, e). by rewrite elem_of_map_to_list.
Qed.

Lemma NoDup_matching_keys (prefix : string) (d : gmap string entry) :
  NoDup (matching_keys prefix d).
Proof.
  unfold matching_keys. apply NoDup_filter.
  rewrite merge_sort_Permutation. apply NoDup_fst_map_to_list.
Qed.

(** ** One page, one prefix, all days *)

Lemma add_keys_eq (prefix : string) (ks : list string) :
  forall acc st,
    add_keys prefix ks acc st =
    (foldl (add_key (data st) prefix) acc ks,
     {| data := data st; ops := ops st ++ map OpGet ks |}).
Proof.
  induction ks as [| k rest IH]; intros acc st.
  - cbn. rewrite app_nil_r. by destruct st.
  - cbn [add_keys]. unfold bind. rewrite read_counter_eq, IH.
    cbn [called data ops foldl map]. rewrite <- app_assoc. reflexivity.
Qed.

Lemma scan_eq (fuel : nat) (prefix : string) :
  forall cur acc st,
    (length (matching_keys prefix (data st)) - default 0 cur < fuel)%nat ->
    (scan fuel prefix cur acc st).1 =
    Some (foldl (add_key (data st) prefix) acc
                (drop (default 0%nat cur) (matching_keys prefix (data st)))).
Proof.
  pose proof list_limit_pos as Hpos.
  induction fuel as [| f IH]; intros cur acc st Hlen; [lia |].
  cbn [scan]. unfold bind, kv_list. cbv zeta. cbn [keys cursor].
  rewrite add_keys_eq. cbn [called data ops].
  set (off := default 0%nat cur) in *.
  set (rest := drop off (matching_keys prefix (data st))).
  assert (length rest = length (matching_keys prefix (data st)) - off)%nat
    as Hrest by apply length_drop.
  destruct (decide (list_limit < length rest)%nat) as [Hmore | Hdone].
  - rewrite IH; cbn [data]; change (default 0%nat (Some ?x)) with x; [| lia].
    rewrite <- drop_drop. fold rest.
    rewrite <- foldl_app, take_drop. reflexivity.
  - cbn [ret fst]. rewrite take_ge by lia. reflexivity.
Qed.

Lemma scan_prefix_eq (prefix : string) (acc : gmap string jsval) (st : kv) :
  (scan_prefix prefix acc st).1 =
  Some (foldl (add_key (data st) prefix) acc (matching_keys prefix (data st))).
Proof. unfold scan_prefix. rewrite scan_eq by (cbn [default]; lia). reflexivity. Qed.

Lemma scan_days_eq (n : nat) :
  forall i now acc st days,
    day_strings n i now = Normal days ->
    (scan_days n i now acc st).1 =
    Normal (Some (foldl (fun a day =>
                           foldl (add_key (data st) (stats_prefix day)) a
                                 (matching_keys (stats_prefix day) (data st)))
                        acc days)).
Proof.
  induction n as [| n IH]; intros i now acc st days Hdays.
  - injection Hdays as <-. reflexivity.
  - cbn [day_strings scan_days] in *. unfold cbind in Hdays.
    destruct (day_string now i) as [day |]; [| discriminate].
    destruct (day_strings n (i + 1) now) as [rest |] eqn:Hrest; [| discriminate].
    injection Hdays as <-. unfold bind.
    pose proof (scan_prefix_eq (stats_prefix day) acc st) as Hs.
    pose proof (scan_reads_only
      (S (length (matching_keys (stats_prefix day) (data st))))
      (stats_prefix day) None acc st) as [Hd _].
    fold (scan_prefix (stats_prefix day) acc st) in Hd.
    destruct (scan_prefix (stats_prefix day) acc st) as [r st1].
    cbn [fst snd] in Hs, Hd. subst r.
    rewrite (IH _ _ _ _ rest Hrest), Hd. reflexivity.
Qed.

(** ** One ad *)

Lemma get_property_ordinary (acc : gmap string jsval) (ad : string) :
  ordinary_name ad ->
  get_property acc ad = match acc !! ad with Some v => OwnValue v | None => Undefined end.
Proof.
  intros [Hp Hf]. unfold get_property. destruct (acc !! ad); [reflexivity |].
  rewrite Hf. by destruct (String.eqb_spec ad "__proto__").
Qed.

Lemma set_property_other (acc : gmap string jsval) (ad ad' : string) (v : jsval) :
  ad' <> ad -> set_property acc ad' v !! ad = acc !! ad.
Proof.
  intros Hne. unfold set_property.
  destruct (String.eqb ad' "__proto__"); [reflexivity |]. by apply lookup_insert_ne.
Qed.

Lemma set_property_ordinary (acc : gmap string jsval) (ad : string) (v : jsval) :
  ordinary_name ad -> set_property acc ad v !! ad = Some v.
Proof.
  intros [Hp _]. unfold set_property.
  destruct (String.eqb_spec ad "__proto__"); [done |]. apply lookup_insert_eq.
Qed.

(** What the keys under one prefix do to the entry of [ad]. *)
Lemma add_keys_lookup (d : gmap string entry) (prefix ad : string) (ks : list string) :
  ordinary_name ad -> NoDup ks ->
  (forall k, k ∈ ks -> starts_with prefix k = true) ->
  forall acc,
    foldl (add_key d prefix) acc ks !! ad =
    if decide (prefix +:+ ad ∈ ks)
    then Some (or_zero_plus (match acc !! ad with Some v => OwnValue v | None => Undefined end)
                            (counter_value d (prefix +:+ ad)))
    else acc !! ad.
Proof.
  intros Hord. induction ks as [| k rest IH]; intros Hnd Hpre acc.
  - rewrite decide_False by apply not_elem_of_nil. reflexivity.
  - apply NoDup_cons in Hnd as [Hk Hnd]. cbn [foldl].
    assert (Hsplit : k = prefix +:+ str_drop (String.length prefix) k)
      by (apply starts_with_split, Hpre; left).
    rewrite IH; [| exact Hnd | intros k' Hk'; apply Hpre; by right].
    destruct (decide (str_drop (String.length prefix) k = ad)) as [Had | Had].
    + assert (k = prefix +:+ ad) as -> by congruence.
      rewrite decide_False by exact Hk. rewrite decide_True by left.
      unfold add_key. rewrite Had, set_property_ordinary by exact Hord.
      by rewrite get_property_ordinary.
    + assert (Hne : prefix +:+ ad <> k).
      { intros <-. apply Had. apply str_drop_app. }
      unfold add_key at 1 2. rewrite !set_property_other by exact Had.
      destruct (decide (prefix +:+ ad ∈ rest)) as [Hin | Hout].
      * rewrite decide_True by (by right). reflexivity.
      * rewrite decide_False; [reflexivity |].
        intros [? | ?]%elem_of_cons; [by apply Hne | by apply Hout].
Qed.

Lemma scanned_prefix_lookup (d : gmap string entry) (day ad : string)
    (acc : gmap string jsval) :
  ordinary_name ad ->
  foldl (add_key d (stats_prefix day)) acc (matching_keys (stats_prefix day) d) !! ad =
  match d !! (stats_prefix day +:+ ad) with
  | Some _ =>
      Some (or_zero_plus (match acc !! ad with Some v => OwnValue v | None => Undefined end)
                         (counter_value d (stats_prefix day +:+ ad)))
  | None => acc !! ad
  end.
Proof.
  intros Hord. rewrite add_keys_lookup.
  - destruct (d !! (stats_prefix day +:+ ad)) as [e |] eqn:He.
    + rewrite decide_True; [reflexivity |].
      apply elem_of_matching_keys. split; [apply starts_with_app | by eexists].
    + rewrite decide_False; [reflexivity |].
      intros [_ [e He']]%elem_of_matching_keys. congruence.
  - exact Hord.
  - apply NoDup_matching_keys.
  - intros k Hk. by apply elem_of_matching_keys in Hk as [? _].
Qed.

Lemma scanned_days_lookup (d : gmap string entry) (ad : string) (days : list string) :
  ordinary_name ad ->
  forall (acc : gmap string jsval) (total : option num),
    acc !! ad = VNum <$> total ->
    foldl (fun a day => foldl (add_key d (stats_prefix day)) a
                              (matching_keys (stats_prefix day) d)) acc days !! ad =
    VNum <$>
      foldl (fun total day =>
               let key := stats_prefix day +:+ ad in
               match d !! key with
               | Some _ =>
                   Some (js_add (num_or (default (Int 0) total) (Int 0))
                                (counter_value d key))
               | None => total
               end) total days.
Proof.
  intros Hord. induction days as [| day rest IH]; intros acc total Hacc; [exact Hacc |].
  cbn [foldl]. apply IH. rewrite scanned_prefix_lookup by exact Hord.
  cbv zeta. destruct (d !! (stats_prefix day +:+ ad)); [| exact Hacc].
  rewrite Hacc. destruct total as [x |]; reflexivity.
Qed.

(** For every store and every authorized [GET /stats] whose days are
    valid dates, the answer is 200 with the window and with, for every
    [ad_id] that is not the name of a member of [Object.prototype], the
    total of its counters over the scanned days. *)
Lemma stats_totals `{JsonNumber number} (env : environment) (now : Z)
    (req : request number) (st : kv) (days : list string) (ad : string) :
  pathname req = "/stats" -> method req = "GET" -> isAuthed env req = true ->
  day_strings (rounds (stats_days (days_param req))) 0 (TimeClip now) = Normal days ->
  ordinary_name ad ->
  exists by_ad_id,
    (fetch env now req st).1 =
      Response 200 (StatsJson (stats_days (days_param req)) by_ad_id) /\
    by_ad_id !! ad = VNum <$> clicks_of (data st) days ad.
Proof.
  intros Hp Hm Hauth Hdays Hord. unfold fetch. rewrite Hp, Hm, Hauth.
  cbn [andb negb String.eqb Ascii.eqb Bool.eqb]. unfold handle_stats, bind.
  pose proof (scan_days_eq _ _ _ ∅ st days Hdays) as Hs.
  destruct (scan_days _ 0 (TimeClip now) ∅ st) as [r st1]. cbn [fst] in Hs. subst r.
  eexists. split; [reflexivity |].
  by apply scanned_days_lookup.
Qed.

(** ** The total as an integer *)

Lemma counter_value_decimal (d : gmap string entry) (key : string) (e : entry) :
  counters_ok d -> counters_bounded d -> starts_with "click:" key = true ->
  d !! key = Some e ->
  counter_value d key = Int (parse_digits (value e) 0) /\
  0 <= parse_digits (value e) 0 <= 2 ^ 53.
Proof.
  intros Hok Hb Hkey He.
  destruct (Hok key e He Hkey) as [Hdec _]. specialize (Hb key e He Hkey).
  pose proof (parse_digits_lower (value e) 0 ltac:(lia)) as Hlo.
  split; [| lia].
  unfold counter_value. rewrite He. cbn [fmap option_fmap option_map].
  assert (value e <> "") as Hne by (intros Heq; by rewrite Heq in Hdec).
  rewrite str_or_nonempty by exact Hne.
  rewrite parseInt_decimal_string by exact Hdec.
  rewrite round_to_double_exact by lia.
  unfold num_or, num_truthy.
  destruct (Z.eqb_spec (parse_digits (value e) 0) 0) as [-> |]; done.
Qed.

Lemma clicks_sum_nonneg (d : gmap string entry) (days : list string) (ad : string) :
  0 <= clicks_sum d days ad.
Proof.
  induction days as [| day rest IH]; cbn [clicks_sum foldr]; [lia |].
  fold (clicks_sum d rest ad). destruct (d !! _) as [e |]; [| exact IH].
  pose proof (parse_digits_lower (value e) 0 ltac:(lia)). lia.
Qed.

Lemma clicks_of_exact (d : gmap string entry) (days : list string) (ad : string) :
  counters_ok d -> counters_bounded d ->
  clicks_sum d days ad <= 2 ^ 53 ->
  clicks_of d days ad =
  if decide (Exists (fun day => is_Some (d !! (stats_prefix day +:+ ad))) days)
  then Some (Int (clicks_sum d days ad)) else None.
Proof.
  intros Hok Hb. unfold clicks_of.
  enough (Hgen : forall (total : option num) (a : Z),
    (total = None /\ a = 0 \/ total = Some (Int a)) -> 0 <= a ->
    a + clicks_sum d days ad <= 2 ^ 53 ->
    foldl (fun total day =>
             let key := stats_prefix day +:+ ad in
             match d !! key with
             | Some _ =>
                 Some (js_add (num_or (default (Int 0) total) (Int 0))
                              (counter_value d key))
             | None => total
             end) total days =
    if decide (Exists (fun day => is_Some (d !! (stats_prefix day +:+ ad))) days)
    then Some (Int (a + clicks_sum d days ad)) else total).
  { intros Hsum. apply (Hgen None 0); [by left | lia | lia]. }
  induction days as [| day rest IH]; intros total a Htotal Ha Hsum.
  - rewrite decide_False by (by intros ?%Exists_nil). reflexivity.
  - cbn [foldl clicks_sum foldr] in *. fold (clicks_sum d rest ad) in *.
    pose proof (clicks_sum_nonneg d rest ad) as Hrest.
    destruct (d !! (stats_prefix day +:+ ad)) as [e |] eqn:He.
    + destruct (counter_value_decimal d (stats_prefix day +:+ ad) e Hok Hb
                  eq_refl He) as [Hv Hrange].
      rewrite decide_True by (left; rewrite He; by eexists).
      assert (Hstep : js_add (num_or (default (Int 0) total) (Int 0))
                             (counter_value d (stats_prefix day +:+ ad))
                      = Int (a + parse_digits (value e) 0)).
      { rewrite Hv. destruct Htotal as [[-> ->] | ->]; cbn [default from_option id];
          unfold num_or, num_truthy.
        - cbn. apply round_to_double_exact. lia.
        - destruct (Z.eqb_spec a 0) as [-> |]; cbn; apply round_to_double_exact; lia. }
      cbv zeta. rewrite Hstep.
      rewrite (IH _ (a + parse_digits (value e) 0)); [| by right | lia | lia].
      destruct (decide _); f_equal; f_equal; [lia |].
      assert (clicks_sum d rest ad = 0) as ->; [| lia].
      clear -n. induction rest as [| day' rest' IH']; [reflexivity |].
      cbn [clicks_sum foldr]. fold (clicks_sum d rest' ad).
      destruct (d !! (stats_prefix day' +:+ ad)) as [e' |] eqn:He'.
      * exfalso. apply n. left. rewrite He'. by eexists.
      * apply IH'. intros Hex. apply n. by right.
    + cbv zeta. rewrite (IH total a Htotal Ha Hsum).
      destruct (decide (Exists _ rest)) as [Hex | Hnex].
      * rewrite decide_True by (by right). reflexivity.
      * rewrite decide_False; [reflexivity |].
        intros [[? Hsome] | ?]%Exists_cons; [congruence | by apply Hnex].
Qed.

(** On a store that satisfies the counter invariant, and for an [ad_id]
    that [{}] does not inherit, the answer maps the [ad_id] to the sum of
    its counters over the window, and has no entry for an [ad_id] without
    a counter in the window. *)
Lemma stats_sums `{JsonNumber number} (env : environment) (now : Z)
    (req : request number) (st : kv) (days : list string) (ad : string) :
  pathname req = "/stats" -> method req = "GET" -> isAuthed env req = true ->
  day_strings (rounds (stats_days (days_param req))) 0 (TimeClip now) = Normal days ->
  ordinary_name ad ->
  counters_ok (data st) -> counters_bounded (data st) ->
  clicks_sum (data st) days ad <= 2 ^ 53 ->
  exists by_ad_id,
    (fetch env now req st).1 =
      Response 200 (StatsJson (stats_days (days_param req)) by_ad_id) /\
    by_ad_id !! ad =
      if decide (Exists (fun day => is_Some (data st !! (stats_prefix day +:+ ad))) days)
      then Some (VNum (Int (clicks_sum (data st) days ad))) else None.
Proof.
  intros Hp Hm Hauth Hdays Hord Hok Hb Hsum.
  destruct (stats_totals env now req st days ad Hp Hm Hauth Hdays Hord)
    as (by_ad_id & Hresp & Had).
  exists by_ad_id. split; [exact Hresp |].
  rewrite Had, clicks_of_exact by assumption. by destruct (decide _).
Qed.

(** * The days that [GET /stats] scans *)

Ltac div_lia := Z.to_euclidean_division_equations; lia.

(** For a day [doe] of a 400-year era, the year of the era, the day of
    the year and the month that [civil_from_days] computes are in range. *)
Lemma era_day_bounds (doe : Z) :
  0 <= doe < 146097 ->
  let yoe := (doe - doe / 1460 + doe / 36524 - doe / 146096) / 365 in
  let doy := doe - (365 * yoe + yoe / 4 - yoe / 100) in
  let mp := (5 * doy + 2) / 153 in
  0 <= yoe <= 399 /\ 0 <= doy <= 365 /\ 0 <= mp <= 11.
Proof.
  intros Hdoe yoe doy mp.
  assert (0 <= yoe <= 399) by (subst yoe; div_lia).
  assert (0 <= doy <= 365) by (subst doy yoe; div_lia).
  split; [assumption |]. split; [assumption |]. subst mp. div_lia.
Qed.

(** [days_from_civil] undoes [civil_from_days], and from 1970 on the year
    has more than two digits. *)
Lemma civil_round_trip (n : Z) :
  let '(y, m, d) := civil_from_days n in
  days_from_civil y m d = n /\ (0 <= n -> 100 <= y).
Proof.
  unfold civil_from_days, days_from_civil. cbv zeta.
  set (z := n + 719468). set (era := z / 146097).
  set (doe := z - era * 146097).
  assert (Hdoe : 0 <= doe < 146097).
  { subst doe era. pose proof (Z.mod_pos_bound z 146097 ltac:(lia)).
    pose proof (Z.div_mod z 146097 ltac:(lia)). lia. }
  pose proof (era_day_bounds doe Hdoe) as Hok. cbv zeta in Hok.
  set (yoe := (doe - doe / 1460 + doe / 36524 - doe / 146096) / 365) in *.
  set (doy := doe - (365 * yoe + yoe / 4 - yoe / 100)) in *.
  set (mp := (5 * doy + 2) / 153) in *.
  destruct Hok as (Hyoe & Hdoy & Hmp).
  set (m := if mp <? 10 then mp + 3 else mp - 9).
  assert (Hm : (if 2 <? m then m - 3 else m + 9) = mp).
  { subst m. destruct (Z.ltb_spec mp 10);
      [destruct (Z.ltb_spec 2 (mp + 3)) | destruct (Z.ltb_spec 2 (mp - 9))]; lia. }
  assert (Hy : (if m <=? 2 then yoe + era * 400 + (if m <=? 2 then 1 else 0) - 1
                else yoe + era * 400 + (if m <=? 2 then 1 else 0)) = yoe + era * 400).
  { destruct (m <=? 2); lia. }
  rewrite Hy, Hm.
  assert (Hera : (yoe + era * 400) / 400 = era).
  { rewrite Z.div_add by lia. rewrite Z.div_small by lia. lia. }
  rewrite Hera. split.
  - replace (yoe + era * 400 - era * 400) with yoe by lia. subst doy doe z. lia.
  - intros Hn. assert (4 <= era).
    { subst era z. apply Z.div_le_lower_bound; lia. }
    destruct (m <=? 2); lia.
Qed.

Lemma utc_midnight_valid (t : Z) :
  0 <= t <= 8640000000000000 -> utc_midnight (Some t) = Some (t / msPerDay * msPerDay).
Proof.
  intros Ht. unfold utc_midnight. pose proof (civil_round_trip (t / msPerDay)) as Hrt.
  destruct (civil_from_days (t / msPerDay)) as [[y m] d].
  assert (0 <= t / msPerDay) as Hday by (apply Z.div_pos; unfold msPerDay; lia).
  destruct Hrt as [Hrt Hy]. specialize (Hy Hday).
  unfold Date_UTC. destruct (Z.leb_spec 0 y); [| lia].
  destruct (Z.leb_spec y 99); [lia |]. cbn [andb]. rewrite Hrt.
  unfold TimeClip.
  pose proof (Z.mul_div_le t msPerDay ltac:(unfold msPerDay; lia)) as Hle.
  destruct (Z.leb_spec (Z.abs (t / msPerDay * msPerDay)) 8640000000000000);
    [reflexivity | unfold msPerDay in *; lia].
Qed.

Lemma day_string_valid (now i : Z) :
  0 <= now <= 8640000000000000 -> 0 <= i <= 30 ->
  day_string (TimeClip now) i = Normal (utc_day (now / msPerDay - i)).
Proof.
  intros Hnow Hi. unfold day_string, TimeClip.
  destruct (Z.leb_spec (Z.abs now) 8640000000000000); [| lia].
  rewrite utc_midnight_valid by exact Hnow. unfold minus_days, TimeClip, utc_day.
  assert (0 <= now / msPerDay) as Hday by (apply Z.div_pos; unfold msPerDay; lia).
  pose proof (Z.mul_div_le now msPerDay ltac:(unfold msPerDay; lia)) as Hle.
  replace (now / msPerDay * msPerDay - i * msPerDay)
    with ((now / msPerDay - i) * msPerDay) by lia.
  destruct (Z.leb_spec (Z.abs ((now / msPerDay - i) * msPerDay)) 8640000000000000);
    [reflexivity | unfold msPerDay in *; lia].
Qed.

Lemma day_strings_valid (now : Z) (n : nat) :
  0 <= now <= 8640000000000000 ->
  forall k : nat, (k + n <= 30)%nat ->
    day_strings n (Z.of_nat k) (TimeClip now) =
    Normal (map (fun i => utc_day (now / msPerDay - Z.of_nat i)) (seq k n)).
Proof.
  intros Hnow. induction n as [| n IH]; intros k Hk; [reflexivity |].
  cbn [day_strings seq map]. rewrite day_string_valid by lia. cbn [cbind].
  replace (Z.of_nat k + 1) with (Z.of_nat (S k)) by lia.
  rewrite IH by lia. reflexivity.
Qed.

Lemma rounds_stats_days (q : option string) :
  (1 <= rounds (stats_days q) <= 30)%nat /\
  stats_days q = Int (Z.of_nat (rounds (stats_days q))).
Proof.
  destruct (stats_days_range q) as (z & Hz & Hr). rewrite Hz. cbn [rounds].
  split; [lia | f_equal; lia].
Qed.

(** * Routes, answers and field limits *)

Lemma str_length_app (a b : string) :
  String.length (a +:+ b) = (String.length a + String.length b)%nat.
Proof.
  induction a as [| c a IH]; [reflexivity |].
  change (String c a +:+ b) with (String c (a +:+ b)). cbn [String.length].
  by rewrite IH.
Qed.

Lemma str_take_length (n : nat) (s : string) : (String.length (str_take n s) <= n)%nat.
Proof.
  revert s. induction n as [| n IH]; intros [| c s]; cbn [str_take String.length]; try lia.
  specialize (IH s). lia.
Qed.

Lemma str_take_short (n : nat) (s : string) :
  (String.length s <= n)%nat -> str_take n s = s.
Proof.
  revert s. induction n as [| n IH]; intros [| c s] Hs; cbn [str_take String.length] in *;
    try reflexivity; [lia |].
  f_equal. apply IH. lia.
Qed.

Section Answers.
Context `{JsonNumber number}.
Implicit Types (env : environment) (req : request number) (st : kv).

Lemma handle_stats_outcome now q st :
  (exists m, (handle_stats now q st).1 = Response 200 (StatsJson (stats_days q) m)) \/
  (exists e, (handle_stats now q st).1 = Threw e).
Proof.
  pose proof (handle_stats_finishes now q st) as Hfin. revert Hfin.
  unfold handle_stats, bind.
  destruct (scan_days _ _ _ _ st) as [[[acc |] | e] st1]; cbn [fst ret]; eauto.
  congruence.
Qed.

(** X1: the answer is [404 not found] exactly for the requests that are
    neither [POST /log] nor [GET /stats], and such a request makes no call
    on the namespace. *)
Theorem not_found_iff env now req st :
  ((fetch env now req st).1 = Response 404 (Text "not found") <->
   ~ (pathname req = "/log" /\ method req = "POST") /\
   ~ (pathname req = "/stats" /\ method req = "GET")) /\
  ((fetch env now req st).1 = Response 404 (Text "not found") ->
   (fetch env now req st).2 = st).
Proof.
  unfold fetch, handle_log.
  destruct (String.eqb_spec (pathname req) "/log") as [Hl | Hl];
    destruct (String.eqb_spec (method req) "POST") as [Hp | Hp]; cbn [andb].
  1: { split; [split; [| intros [Hn _]; exfalso; by apply Hn] | ].
       all: destruct (json_body req) as [b |]; [| discriminate].
       all: destruct (read_click now b) as [c |]; [| discriminate].
       all: destruct (String.eqb (ad_id c) ""); [discriminate |].
       all: rewrite record_click_eq; discriminate. }
  all: destruct (String.eqb_spec (pathname req) "/stats") as [Hs | Hs];
    destruct (String.eqb_spec (method req) "GET") as [Hg | Hg]; cbn [andb].
  all: try (split; [split; [intros _; split; intros [? ?]; congruence | reflexivity]
                   | reflexivity]).
  all: destruct (negb (isAuthed env req));
    [split; [split; [discriminate | intros [_ Hn]; exfalso; by apply Hn] | discriminate] |].
  all: destruct (handle_stats_outcome now (days_param req) st) as [[m Hm] | [e He]].
  all: try rewrite Hm; try rewrite He.
  all: split; [split; [discriminate | intros [_ Hn]; exfalso; by apply Hn] | discriminate].
Qed.

(** X2: a [POST /log] ends in one of four ways: [400 bad json] when the
    body does not parse, an exception raised while the fields are coerced,
    [400 missing ad_id], or [200 ok]; only the last one makes calls on the
    namespace. *)
Theorem log_outcomes env now req st :
  pathname req = "/log" -> method req = "POST" ->
  let r := fetch env now req st in
  (json_body req = None <-> r.1 = Response 400 (Text "bad json")) /\
  (r.1 = Response 400 (Text "bad json") \/
   r.1 = Response 400 (Text "missing ad_id") \/
   r.1 = Response 200 (Text "ok") \/
   exists e, r.1 = Threw e) /\
  (r.1 <> Response 200 (Text "ok") -> r.2 = st).
Proof.
  intros Hp Hm r. subst r. split; [| split].
  - unfold fetch, handle_log. rewrite Hp, Hm. cbn [andb String.eqb Ascii.eqb Bool.eqb].
    destruct (json_body req) as [b |]; [| done].
    split; [discriminate |].
    destruct (read_click now b) as [c |]; [| discriminate].
    destruct (String.eqb (ad_id c) ""); [discriminate |].
    rewrite record_click_eq. discriminate.
  - unfold fetch, handle_log. rewrite Hp, Hm. cbn [andb String.eqb Ascii.eqb Bool.eqb].
    destruct (json_body req) as [b |]; [| by left].
    destruct (read_click now b) as [c | e]; [| right; right; right; by exists e].
    destruct (String.eqb (ad_id c) ""); [right; by left |].
    rewrite record_click_eq. right; right; by left.
  - by apply log_rejected_untouched.
Qed.

Lemma or_toString_string (s : string) :
  or_toString (Some (JStr s)) (Normal "") = Normal s.
Proof.
  unfold or_toString, truthy. by destruct (String.eqb_spec s "") as [-> |].
Qed.

(** X3: whatever the body holds, the fields of a click are cut to 120, 80,
    80 and 300 characters and its day to 10, so the keys it is stored
    under have at most 137 and 125 characters; a member that is a string
    is cut to its first characters and kept whole when it is short
    enough. *)
Theorem click_field_limits now (b : json number) c :
  read_click now b = Normal c ->
  ((String.length (ad_id c) <= 120)%nat /\ (String.length (genre c) <= 80)%nat /\
   (String.length (page_id c) <= 80)%nat /\ (String.length (page_url c) <= 300)%nat) /\
  ((String.length (click_key c) <= 137)%nat /\
   (String.length (meta_key (ad_id c)) <= 125)%nat) /\
  (forall s, get_field b "ad_id" = Normal (Some (JStr s)) ->
     ad_id c = str_take 120 s /\ ((String.length s <= 120)%nat -> ad_id c = s)) /\
  (forall s, get_field b "genre" = Normal (Some (JStr s)) ->
     genre c = str_take 80 s /\ ((String.length s <= 80)%nat -> genre c = s)) /\
  (forall s, get_field b "page_id" = Normal (Some (JStr s)) ->
     page_id c = str_take 80 s /\ ((String.length s <= 80)%nat -> page_id c = s)) /\
  (forall s, get_field b "page_url" = Normal (Some (JStr s)) ->
     page_url c = str_take 300 s /\ ((String.length s <= 300)%nat -> page_url c = s)).
Proof.
  intros Hc. apply read_click_inv in Hc.
  destruct Hc as (v1 & v2 & v3 & v4 & v5 & s2 & s3 & s4 & s5 &
                  _ & _ & Hv2 & Hs2 & Hv3 & Hs3 & Hv4 & Hs4 & Hv5 & Hs5 &
                  Ha & Hg & Hp & Hu).
  assert (Hkept : forall (n : nat) (v : option (json number)) (r f s : string),
    or_toString v (Normal "") = Normal r -> f = str_take n r -> v = Some (JStr s) ->
    f = str_take n s /\ ((String.length s <= n)%nat -> f = s)).
  { intros n v r f s Hr -> ->. rewrite or_toString_string in Hr. injection Hr as <-.
    split; [reflexivity | apply str_take_short]. }
  split; [| split; [| split; [| split; [| split]]]].
  - rewrite Ha, Hg, Hp, Hu. repeat split; apply str_take_length.
  - unfold click_key, counter_key, meta_key. rewrite !str_length_app, Ha.
    pose proof (str_take_length 10 (ts c)). pose proof (str_take_length 120 s2).
    cbn [String.length]. split; lia.
  - intros s Hs. rewrite Hs in Hv2. injection Hv2 as Hv2. by apply (Hkept _ v2 s2).
  - intros s Hs. rewrite Hs in Hv3. injection Hv3 as Hv3. by apply (Hkept _ v3 s3).
  - intros s Hs. rewrite Hs in Hv4. injection Hv4 as Hv4. by apply (Hkept _ v4 s4).
  - intros s Hs. rewrite Hs in Hv5. injection Hv5 as Hv5. by apply (Hkept _ v5 s5).
Qed.

(** X4: a body that parses to a boolean, a number, a string or an array
    has no [ad_id]: at a valid time it is answered [400 missing ad_id]
    and nothing is stored.  So is the empty object. *)
Theorem log_non_object_body env now req st (b : json number) :
  pathname req = "/log" -> method req = "POST" -> json_body req = Some b ->
  Z.abs now <= 8640000000000000 ->
  match b with JNull => False | JObj members => members = [] | _ => True end ->
  fetch env now req st = (Response 400 (Text "missing ad_id"), st).
Proof.
  intros Hp Hm Hb Hnow Hshape. unfold fetch, handle_log.
  rewrite Hp, Hm, Hb. cbn [andb String.eqb Ascii.eqb Bool.eqb].
  assert (Hclip : TimeClip now = Some now).
  { unfold TimeClip. by destruct (Z.leb_spec (Z.abs now) 8640000000000000); [| lia]. }
  destruct b as [| x | n | s | items | members]; try contradiction;
    try subst members; unfold read_click; cbn [get_field own_property cbind or_toString];
    rewrite Hclip; reflexivity.
Qed.

Lemma own_property_Forall {A} (P : A -> Prop) (name : string)
    (members : list (string * A)) (v : A) :
  Forall (fun p => P p.2) members -> own_property name members = Some v -> P v.
Proof.
  induction 1 as [| [k w] rest Hw _ IH]; [discriminate |]. cbn [own_property].
  destruct (own_property name rest) as [u |]; [intros [= <-]; by apply IH |].
  destruct (String.eqb k name); [intros [= <-]; exact Hw | discriminate].
Qed.

Lemma or_toString_primitive (v : option (json number)) (d : string) :
  (forall x, v = Some x -> is_primitive x = true) ->
  exists s, or_toString v (Normal d) = Normal s.
Proof.
  intros Hv. destruct v as [x |]; [| by eexists]. specialize (Hv x eq_refl).
  unfold or_toString. destruct (truthy x) eqn:Ht; [| by eexists].
  destruct x; try discriminate; by eexists.
Qed.

(** X5: an object whose members are all null, booleans, numbers or
    strings never makes [POST /log] throw: at a valid time the answer is
    [200 ok], or [400 missing ad_id] with nothing stored. *)
Theorem log_flat_body env now req st (members : list (string * json number)) :
  pathname req = "/log" -> method req = "POST" ->
  json_body req = Some (JObj members) ->
  Z.abs now <= 8640000000000000 ->
  Forall (fun p => is_primitive p.2 = true) members ->
  (fetch env now req st).1 = Response 200 (Text "ok") \/
  fetch env now req st = (Response 400 (Text "missing ad_id"), st).
Proof.
  intros Hp Hm Hb Hnow Hflat.
  assert (Hfield : forall name d, exists s,
    or_toString (own_property name members) (Normal d) = Normal s).
  { intros name d. apply or_toString_primitive. intros x Hx.
    by apply (own_property_Forall (fun v => is_primitive v = true) name members x). }
  assert (Hclip : Date_toISOString (TimeClip now) = Normal (iso_string now)).
  { unfold TimeClip. by destruct (Z.leb_spec (Z.abs now) 8640000000000000); [| lia]. }
  assert (exists c, read_click now (JObj members) = Normal c) as [c Hc].
  { unfold read_click. cbn [get_field cbind]. rewrite Hclip.
    destruct (Hfield "ts" (iso_string now)) as [s1 ->].
    destruct (Hfield "ad_id" "") as [s2 ->]. destruct (Hfield "genre" "") as [s3 ->].
    destruct (Hfield "page_id" "") as [s4 ->]. destruct (Hfield "page_url" "") as [s5 ->].
    by eexists. }
  unfold fetch, handle_log. rewrite Hp, Hm, Hb, Hc.
  cbn [andb String.eqb Ascii.eqb Bool.eqb].
  destruct (String.eqb (ad_id c) ""); [by right | left].
  by rewrite record_click_eq.
Qed.

(** X6: [GET /stats] answers [401 unauthorized] exactly when no
    non-empty secret is configured whose [Bearer] form is the
    Authorization header; a matching header is never turned away. *)
Theorem stats_401_iff env now req st :
  pathname req = "/stats" -> method req = "GET" ->
  (fetch env now req st).1 = Response 401 (Text "unauthorized") <->
  ~ exists secret, STATS_TOKEN env = Some secret /\ secret <> "" /\
                   authorization req = Some ("Bearer " +:+ secret).
Proof.
  intros Hp Hm.
  assert (Hauth : isAuthed env req = true <->
    exists secret, STATS_TOKEN env = Some secret /\ secret <> "" /\
                   authorization req = Some ("Bearer " +:+ secret)).
  { unfold isAuthed. destruct (STATS_TOKEN env) as [[| c t] |].
    - split; [discriminate | intros (s & [= <-] & Hne & _); done].
    - rewrite String.eqb_eq. split.
      + intros Heq. exists (String c t). split; [done |]. split; [done |].
        destruct (authorization req) as [[| a s] |]; cbn [str_or] in Heq;
          [discriminate Heq | by rewrite Heq | discriminate Heq].
      + intros (s & [= <-] & _ & ->). reflexivity.
    - split; [discriminate | intros (s & Hs & _); discriminate]. }
  rewrite <- Hauth. unfold fetch. rewrite Hp, Hm.
  cbn [andb String.eqb Ascii.eqb Bool.eqb].
  destruct (isAuthed env req); cbn [negb ret fst].
  - split; [| intros Hn; exfalso; by apply Hn].
    destruct (handle_stats_outcome now (days_param req) st) as [[m ->] | [e ->]];
      discriminate.
  - split; [intros _; discriminate | reflexivity].
Qed.
End Answers.

(** * What a scan reads and answers *)

Lemma get_keys_app (l1 l2 : list kv_op) :
  get_keys (l1 ++ l2) = get_keys l1 ++ get_keys l2.
Proof. unfold get_keys. apply flat_map_app. Qed.

Lemma get_keys_gets (ks : list string) : get_keys (map OpGet ks) = ks.
Proof.
  induction ks as [| k ks IH]; [reflexivity |]. cbn [map].
  change (get_keys (OpGet k :: map OpGet ks)) with (k :: get_keys (map OpGet ks)).
  by rewrite IH.
Qed.

Lemma scan_calls (fuel : nat) (prefix : string) :
  forall cur acc st,
    (length (matching_keys prefix (data st)) - default 0 cur < fuel)%nat ->
    exists l,
      (scan fuel prefix cur acc st).2 = {| data := data st; ops := ops st ++ l |} /\
      get_keys l = drop (default 0%nat cur) (matching_keys prefix (data st)).
Proof.
  pose proof list_limit_pos as Hpos.
  induction fuel as [| f IH]; intros cur acc st Hlen; [lia |].
  cbn [scan]. unfold bind, kv_list. cbv zeta. cbn [keys cursor].
  rewrite add_keys_eq. cbn [called data ops].
  set (off := default 0%nat cur) in *.
  set (rest := drop off (matching_keys prefix (data st))).
  assert (length rest = length (matching_keys prefix (data st)) - off)%nat
    as Hrest by apply length_drop.
  destruct (decide (list_limit < length rest)%nat) as [Hmore | Hdone].
  - edestruct (IH (Some (off + list_limit)%nat)) as (l & -> & Hl).
    { cbn [data]. change (default 0%nat (Some ?x)) with x. lia. }
    cbn [data ops] in *. change (default 0%nat (Some ?x)) with x in Hl.
    exists ([OpList prefix cur] ++ map OpGet (take list_limit rest) ++ l).
    split; [by rewrite !app_assoc |].
    rewrite !get_keys_app, get_keys_gets, Hl. cbn [get_keys flat_map app].
    rewrite <- drop_drop. fold rest. apply take_drop.
  - exists ([OpList prefix cur] ++ map OpGet (take list_limit rest)).
    cbn [ret snd]. split; [by rewrite !app_assoc |].
    rewrite get_keys_app, get_keys_gets. cbn [get_keys flat_map app].
    apply take_ge. lia.
Qed.

Lemma scan_days_calls (n : nat) :
  forall i now acc st days,
    day_strings n i now = Normal days ->
    exists l,
      (scan_days n i now acc st).2 = {| data := data st; ops := ops st ++ l |} /\
      get_keys l =
        concat (map (fun day => matching_keys (stats_prefix day) (data st)) days).
Proof.
  induction n as [| n IH]; intros i now acc st days Hdays.
  - injection Hdays as <-. exists []. cbn. rewrite app_nil_r. by destruct st.
  - cbn [day_strings scan_days] in *. unfold cbind in Hdays.
    destruct (day_string now i) as [day |]; [| discriminate].
    destruct (day_strings n (i + 1) now) as [rest |] eqn:Hrest; [| discriminate].
    injection Hdays as <-. unfold bind.
    pose proof (scan_prefix_eq (stats_prefix day) acc st) as Hs.
    destruct (scan_calls (S (length (matching_keys (stats_prefix day) (data st))))
                (stats_prefix day) None acc st) as (l1 & Hst1 & Hl1);
      [cbn [default]; lia |].
    fold (scan_prefix (stats_prefix day) acc st) in Hst1.
    destruct (scan_prefix (stats_prefix day) acc st) as [r st1].
    cbn [fst snd] in Hs, Hst1. subst r st1.
    destruct (IH (i + 1) now
                (foldl (add_key (data st) (stats_prefix day)) acc
                       (matching_keys (stats_prefix day) (data st)))
                {| data := data st; ops := ops st ++ l1 |} rest Hrest) as (l2 & -> & Hl2).
    cbn [data ops] in *. exists (l1 ++ l2). split; [by rewrite app_assoc |].
    rewrite get_keys_app, Hl1, Hl2. reflexivity.
Qed.

(** ** Which ads the answer lists *)

Lemma set_property_is_Some (acc : gmap string jsval) (k ad : string) (v : jsval) :
  is_Some (set_property acc k v !! ad) <->
  is_Some (acc !! ad) \/ (ad = k /\ ad <> "__proto__").
Proof.
  unfold set_property. destruct (String.eqb_spec k "__proto__") as [-> | Hk].
  - split; [by left | intros [? | [? ?]]; done].
  - destruct (decide (ad = k)) as [-> | Hne].
    + rewrite lookup_insert_eq. split; [intros _; by right | by eauto].
    + rewrite lookup_insert_ne by done. split; [by left | intros [? | [? ?]]; done].
Qed.

Lemma add_keys_is_Some (d : gmap string entry) (prefix ad : string) (ks : list string) :
  (forall k, k ∈ ks -> starts_with prefix k = true) ->
  forall acc,
    is_Some (foldl (add_key d prefix) acc ks !! ad) <->
    is_Some (acc !! ad) \/ (ad <> "__proto__" /\ prefix +:+ ad ∈ ks).
Proof.
  induction ks as [| k rest IH]; intros Hpre acc.
  - cbn [foldl]. split; [by left | intros [? | [_ ?%elem_of_nil]]; done].
  - cbn [foldl]. rewrite IH by (intros k' Hk'; apply Hpre; by right).
    unfold add_key. rewrite set_property_is_Some.
    assert (Hsplit : k = prefix +:+ str_drop (String.length prefix) k)
      by (apply starts_with_split, Hpre; left).
    rewrite elem_of_cons. split.
    + intros [[? | [-> Hne]] | [? ?]]; [by left | right | right; by eauto].
      split; [exact Hne |]. left. by rewrite <- Hsplit.
    + intros [? | [Hne [Hk | ?]]]; [by left; left | left; right | right; by eauto].
      split; [by rewrite <- Hk, str_drop_app | exact Hne].
Qed.

Lemma scanned_days_is_Some (d : gmap string entry) (ad : string) (days : list string) :
  forall acc : gmap string jsval,
    is_Some (foldl (fun a day => foldl (add_key d (stats_prefix day)) a
                                       (matching_keys (stats_prefix day) d))
                   acc days !! ad) <->
    is_Some (acc !! ad) \/
    (ad <> "__proto__" /\
     Exists (fun day => is_Some (d !! (stats_prefix day +:+ ad))) days).
Proof.
  induction days as [| day rest IH]; intros acc.
  - cbn [foldl]. split; [by left | intros [? | [_ ?%Exists_nil]]; done].
  - cbn [foldl]. rewrite IH, add_keys_is_Some
      by (intros k Hk; by apply elem_of_matching_keys in Hk as [? _]).
    rewrite elem_of_matching_keys, Exists_cons. split.
    + intros [[? | [? [_ ?]]] | [? ?]]; eauto.
    + intros [? | [Hne [? | ?]]]; eauto.
      left; right. split; [done |]. split; [apply starts_with_app | done].
Qed.

Section StatsAnswers.
Context `{JsonNumber number}.
Implicit Types (env : environment) (req : request number) (st : kv).

Lemma fetch_stats_authorized env now req st :
  pathname req = "/stats" -> method req = "GET" -> isAuthed env req = true ->
  fetch env now req st = handle_stats now (days_param req) st.
Proof.
  intros Hp Hm Ha. unfold fetch. rewrite Hp, Hm, Ha. reflexivity.
Qed.

(** X7: at any time from 1970 to the end of the [Date] range, an
    authorized [GET /stats] answers 200 for every store, however many
    pages its listings take, with a window of 1 to 30 days; it reads the
    counters under the prefixes of the last [days] UTC days, today first,
    each key once and in listing order, and writes nothing. *)
Theorem stats_answers env now req st :
  pathname req = "/stats" -> method req = "GET" -> isAuthed env req = true ->
  0 <= now <= 8640000000000000 ->
  let r := fetch env now req st in
  let calls := drop (length (ops st)) (ops r.2) in
  exists (n : nat) by_ad_id,
    (1 <= n <= 30)%nat /\
    r.1 = Response 200 (StatsJson (Int (Z.of_nat n)) by_ad_id) /\
    get_keys calls =
      concat (map (fun day => matching_keys (stats_prefix day) (data st))
                  (window_days now n)) /\
    put_keys calls = [] /\ data r.2 = data st.
Proof.
  intros Hp Hm Ha Hnow r calls. subst calls r.
  rewrite (fetch_stats_authorized env now req st Hp Hm Ha).
  destruct (rounds_stats_days (days_param req)) as [Hn Hdays].
  set (n := rounds (stats_days (days_param req))) in *.
  pose proof (day_strings_valid now n Hnow 0 ltac:(lia)) as Hds.
  change (Z.of_nat 0) with 0 in Hds. fold (window_days now n) in Hds.
  destruct (handle_stats_reads_only now (days_param req) st) as [Hdata (l' & Hl' & Hputs)].
  unfold handle_stats, bind in *. fold n in Hl', Hdata |- *.
  pose proof (scan_days_eq n 0 (TimeClip now) ∅ st _ Hds) as Hout.
  destruct (scan_days_calls n 0 (TimeClip now) ∅ st _ Hds) as (l & Hst & Hl).
  destruct (scan_days n 0 (TimeClip now) ∅ st) as [res st1].
  cbn [fst snd ret] in *. subst res st1. cbn [data ops] in *.
  apply app_inv_head in Hl'. subst l'.
  exists n. eexists. split; [exact Hn |]. rewrite Hdays. split; [reflexivity |].
  rewrite drop_app_length. done.
Qed.

(** X8: the answer of an authorized [GET /stats] lists exactly the ads
    that have a counter under one of the scanned days, but for the ad
    named [__proto__], which it never lists. *)
Theorem stats_lists_counted_ads env now req st (days : list string) by_ad_id days_n :
  pathname req = "/stats" -> method req = "GET" -> isAuthed env req = true ->
  day_strings (rounds (stats_days (days_param req))) 0 (TimeClip now) = Normal days ->
  (fetch env now req st).1 = Response 200 (StatsJson days_n by_ad_id) ->
  forall ad,
    is_Some (by_ad_id !! ad) <->
    ad <> "__proto__" /\
    Exists (fun day => is_Some (data st !! (stats_prefix day +:+ ad))) days.
Proof.
  intros Hp Hm Ha Hds Hresp ad.
  rewrite (fetch_stats_authorized env now req st Hp Hm Ha) in Hresp.
  unfold handle_stats, bind in Hresp.
  pose proof (scan_days_eq _ 0 (TimeClip now) ∅ st _ Hds) as Hout.
  destruct (scan_days _ 0 (TimeClip now) ∅ st) as [res st1].
  cbn [fst ret] in *. subst res. injection Hresp as _ <-.
  rewrite scanned_days_is_Some, lookup_empty. split.
  - intros [[? ?] | ?]; done.
  - by right.
Qed.
End StatsAnswers.

(** * Requests one after the other *)

Lemma js_add_one_cases (p : Z) :
  0 <= p <= 2 ^ 53 ->
  js_add (Int p) (Int 1) = Int (if p =? 2 ^ 53 then p else p + 1).
Proof.
  intros Hp. destruct (Z.eqb_spec p (2 ^ 53)) as [-> | Hne].
  - vm_compute. reflexivity.
  - apply js_add_one_safe. lia.
Qed.

Section Composition.
Context `{JsonNumber number}.
Implicit Types (env : environment) (req : request number) (st : kv).

Lemma logged_count_nonneg (reqs : list (Z * request number)) (key : string) :
  0 <= logged_count reqs key.
Proof.
  induction reqs as [| [now req] rest IH]; cbn [logged_count]; [lia |].
  destruct (logged_click now req) as [c |]; [destruct (String.eqb _ _) |]; lia.
Qed.

Lemma logged_total_nonneg (reqs : list (Z * request number)) (days : list string)
    (ad : string) :
  0 <= logged_total reqs days ad.
Proof.
  unfold logged_total. induction days as [| day rest IH]; cbn [foldr]; [lia |].
  pose proof (logged_count_nonneg reqs (stats_prefix day +:+ ad)). lia.
Qed.

(** The entry under a counter key after one more request. *)
Lemma fetch_tally env now req st (key : string) (z : Z) :
  starts_with "click:" key = true -> 0 <= z < 2 ^ 53 ->
  (data st !! key = None /\ z = 0 \/
   data st !! key = Some (counter_entry (Int z)) /\ 1 <= z) ->
  let z' := z + match logged_click now req with
                | Some c => if String.eqb (click_key c) key then 1 else 0
                | None => 0
                end in
  data (fetch env now req st).2 !! key = None /\ z' = 0 \/
  data (fetch env now req st).2 !! key = Some (counter_entry (Int z')) /\ 1 <= z'.
Proof.
  intros Hkey Hz Ht z'. subst z'. rewrite fetch_data.
  destruct (logged_click now req) as [c |]; [| by rewrite Z.add_0_r].
  assert (Hmeta : meta_key (ad_id c) <> key).
  { intros <-. by rewrite meta_key_not_counter in Hkey. }
  rewrite lookup_insert_ne by exact Hmeta.
  destruct (String.eqb_spec (click_key c) key) as [<- | Hne].
  - rewrite lookup_insert_eq. right. split; [| lia].
    assert (counter_value (data st) (click_key c) = Int z) as ->.
    { destruct Ht as [[Hn ->] | [Hs _]].
      - by apply counter_value_missing.
      - apply counter_value_written; [lia | exact Hs]. }
    by rewrite js_add_one_safe by lia.
  - rewrite lookup_insert_ne by exact Hne. by rewrite Z.add_0_r.
Qed.

Lemma serve_tally env (reqs : list (Z * request number)) (key : string) :
  starts_with "click:" key = true ->
  forall st z, 0 <= z -> z + logged_count reqs key <= 2 ^ 53 ->
    (data st !! key = None /\ z = 0 \/
     data st !! key = Some (counter_entry (Int z)) /\ 1 <= z) ->
    let z' := z + logged_count reqs key in
    data (serve env reqs st) !! key = None /\ z' = 0 \/
    data (serve env reqs st) !! key = Some (counter_entry (Int z')) /\ 1 <= z'.
Proof.
  intros Hkey. induction reqs as [| [now req] rest IH]; intros st z Hz Hsum Ht z'.
  - subst z'. cbn [serve logged_count]. by rewrite Z.add_0_r.
  - subst z'. cbn [serve logged_count] in *.
    pose proof (logged_count_nonneg rest key) as Hrest.
    set (delta := match logged_click now req with
                  | Some c => if String.eqb (click_key c) key then 1 else 0
                  | None => 0
                  end) in *.
    assert (0 <= delta <= 1) as Hdelta.
    { subst delta. destruct (logged_click now req) as [c |];
        [destruct (String.eqb _ _) |]; lia. }
    pose proof (fetch_tally env now req st key z Hkey) as Hstep.
    cbv zeta in Hstep. fold delta in Hstep.
    destruct (Z.eq_dec delta 0) as [Hd0 | Hd1].
    + rewrite Hd0, Z.add_0_l. apply (IH _ z Hz ltac:(lia)).
      rewrite fetch_data. subst delta.
      destruct (logged_click now req) as [c |]; [| exact Ht].
      destruct (String.eqb_spec (click_key c) key) as [| Hne]; [lia |].
      rewrite !lookup_insert_ne; [exact Ht | exact Hne |].
      intros <-. by rewrite meta_key_not_counter in Hkey.
    + replace (z + (delta + logged_count rest key))
        with ((z + delta) + logged_count rest key) by lia.
      apply (IH _ (z + delta)); [lia | lia |]. apply Hstep; [lia | exact Ht].
Qed.

Lemma reached_tally env (reqs : list (Z * request number)) (key : string) :
  starts_with "click:" key = true -> logged_count reqs key <= 2 ^ 53 ->
  let st := serve env reqs empty_kv in
  data st !! key = None /\ logged_count reqs key = 0 \/
  data st !! key = Some (counter_entry (Int (logged_count reqs key))) /\
  1 <= logged_count reqs key.
Proof.
  intros Hkey Hmax.
  pose proof (serve_tally env reqs key Hkey empty_kv 0 ltac:(lia) ltac:(lia)) as Ht.
  cbv zeta in Ht. rewrite Z.add_0_l in Ht. apply Ht. left. split; [| reflexivity].
  apply lookup_empty.
Qed.

Lemma reached_clicks_sum env (reqs : list (Z * request number)) (days : list string)
    (ad : string) :
  logged_total reqs days ad <= 2 ^ 53 ->
  let d := data (serve env reqs empty_kv) in
  clicks_sum d days ad = logged_total reqs days ad /\
  (Exists (fun day => is_Some (d !! (stats_prefix day +:+ ad))) days <->
   logged_total reqs days ad <> 0).
Proof.
  intros Hmax d. subst d. unfold logged_total in *.
  induction days as [| day rest IH]; cbn [clicks_sum foldr] in *.
  - split; [reflexivity |]. split; [by intros ?%Exists_nil | done].
  - fold (clicks_sum (data (serve env reqs empty_kv)) rest ad).
    pose proof (logged_count_nonneg reqs (stats_prefix day +:+ ad)) as Hc.
    pose proof (logged_total_nonneg reqs rest ad) as Hr. unfold logged_total in Hr.
    destruct (IH ltac:(lia)) as [IHsum IHex]. rewrite Exists_cons, IHex, IHsum.
    destruct (reached_tally env reqs (stats_prefix day +:+ ad) eq_refl ltac:(lia))
      as [[-> Hzero] | [-> Hpos]].
    + rewrite Hzero. split; [lia |]. split; [intros [[? ?] | ?]; [done | lia] |].
      intros Hne. right. lia.
    + cbn [counter_entry value]. rewrite Number_toString_safe by lia.
      rewrite parse_digits_decimal by lia. split; [reflexivity |].
      split; [lia | intros _; left; by eexists].
Qed.

(** X9: what [POST /log] counts, [GET /stats] reports.  After any
    requests served from the empty store, an authorized [GET /stats] at a
    time from 1970 on answers, for every ad whose name [{}] does not
    inherit, the number of accepted clicks recorded for that ad under the
    days of its window, and lists no ad without such a click. *)
Theorem stats_reports_logged_clicks env (reqs : list (Z * request number))
    now req (ad : string) :
  pathname req = "/stats" -> method req = "GET" -> isAuthed env req = true ->
  0 <= now <= 8640000000000000 -> ordinary_name ad ->
  let st := serve env reqs empty_kv in
  let days := window_days now (rounds (stats_days (days_param req))) in
  let total := logged_total reqs days ad in
  total <= 2 ^ 53 ->
  exists by_ad_id,
    (fetch env now req st).1 =
      Response 200 (StatsJson (stats_days (days_param req)) by_ad_id) /\
    by_ad_id !! ad = if decide (total = 0) then None else Some (VNum (Int total)).
Proof.
  intros Hp Hm Ha Hnow Hord st days total Hmax.
  destruct (rounds_stats_days (days_param req)) as [Hn _].
  pose proof (day_strings_valid now (rounds (stats_days (days_param req))) Hnow 0
                ltac:(lia)) as Hds.
  change (Z.of_nat 0) with 0 in Hds. fold (window_days now (rounds (stats_days (days_param req)))) in Hds.
  fold days in Hds.
  destruct (serve_keeps_counters env reqs empty_kv
              (proj1 counters_ok_empty) (proj2 counters_ok_empty)) as [Hok Hb].
  destruct (reached_clicks_sum env reqs days ad Hmax) as [Hsum Hex].
  fold st in Hok, Hb, Hsum, Hex. cbv zeta in Hsum, Hex.
  destruct (stats_sums env now req st days ad Hp Hm Ha Hds Hord Hok Hb
              ltac:(rewrite Hsum; exact Hmax)) as (m & Hresp & Hm').
  exists m. split; [exact Hresp |]. rewrite Hm', Hsum. fold total in Hex |- *.
  destruct (decide (Exists _ days)) as [He | He]; destruct (decide (total = 0)) as [Ht | Ht];
    try reflexivity; exfalso; tauto.
Qed.

(** X10: no request removes an entry that does not expire.  A key
    outside [meta:] that holds an entry without a TTL before a run of
    requests holds one without a TTL after it: the handler deletes
    nothing, and writes with a TTL under [meta:] keys only. *)
Theorem lasting_keys_are_kept env (reqs : list (Z * request number)) st
    (key : string) (e : entry) :
  data st !! key = Some e -> expirationTtl e = None ->
  starts_with "meta:" key = false ->
  exists e', data (serve env reqs st) !! key = Some e' /\ expirationTtl e' = None.
Proof.
  intros He Httl Hkey. revert st e He Httl.
  induction reqs as [| [now req] rest IH]; intros st e He Httl; [by exists e |].
  cbn [serve].
  destruct (logged_click now req) as [c |] eqn:Hc.
  - destruct (decide (key = click_key c)) as [-> | Hne].
    + apply (IH (fetch env now req st).2
               (counter_entry (js_add (counter_value (data st) (click_key c)) (Int 1))));
        [| reflexivity].
      rewrite fetch_data, Hc.
      rewrite lookup_insert_ne by (apply not_eq_sym, counter_key_meta_key_ne).
      apply lookup_insert_eq.
    + apply (IH (fetch env now req st).2 e); [| exact Httl].
      rewrite fetch_data, Hc.
      rewrite lookup_insert_ne by (intros <-; discriminate Hkey).
      by rewrite lookup_insert_ne.
  - apply (IH (fetch env now req st).2 e); [| exact Httl].
    by rewrite fetch_data, Hc.
Qed.

(** X11: in a store reached from the empty one, a further request
    raises a counter by one or leaves it as it is, and never above
    [2^53]; no counter ever goes down. *)
Theorem counter_steps env (reqs : list (Z * request number)) now req (key : string) :
  starts_with "click:" key = true ->
  let st := serve env reqs empty_kv in
  exists p q,
    counter_value (data st) key = Int p /\
    counter_value (data (fetch env now req st).2) key = Int q /\
    0 <= p /\ p <= q <= p + 1 /\ q <= 2 ^ 53.
Proof.
  intros Hkey st.
  destruct (serve_keeps_counters env reqs empty_kv
              (proj1 counters_ok_empty) (proj2 counters_ok_empty)) as [Hok Hb].
  fold st in Hok, Hb.
  destruct (counter_value_bounded (data st) key Hok Hb Hkey) as (p & Hp & Hrange).
  exists p. rewrite fetch_data.
  destruct (logged_click now req) as [c |]; [| exists p; repeat split; try lia; done].
  assert (Hmeta : meta_key (ad_id c) <> key).
  { intros <-. by rewrite meta_key_not_counter in Hkey. }
  destruct (decide (click_key c = key)) as [<- | Hne].
  - rewrite Hp, js_add_one_cases by exact Hrange.
    exists (if p =? 2 ^ 53 then p else p + 1). split; [reflexivity |].
    split; [| destruct (Z.eqb_spec p (2 ^ 53)); lia].
    apply counter_value_written; [destruct (Z.eqb_spec p (2 ^ 53)); lia |].
    rewrite lookup_insert_ne by exact Hmeta. apply lookup_insert_eq.
  - exists p. split; [exact Hp |]. split; [| lia].
    unfold counter_value in *. by rewrite !lookup_insert_ne.
Qed.

Lemma logged_click_shape now req c :
  logged_click now req = Some c ->
  ad_id c <> "" /\ (String.length (ad_id c) <= 120)%nat /\
  (String.length (genre c) <= 80)%nat /\ (String.length (page_id c) <= 80)%nat /\
  (String.length (page_url c) <= 300)%nat.
Proof.
  intros Hc. split; [by eapply logged_click_ad_id |].
  unfold logged_click in Hc. destruct (_ && _); [| discriminate].
  destruct (json_body req) as [b |]; [| discriminate].
  destruct (read_click now b) as [c' |] eqn:Hread; [| discriminate].
  destruct (String.eqb (ad_id c') ""); [discriminate |]. injection Hc as <-.
  apply read_click_inv in Hread.
  destruct Hread as (? & ? & ? & ? & ? & ? & ? & ? & ? &
                     _ & _ & _ & _ & _ & _ & _ & _ & _ & _ & -> & -> & -> & ->).
  repeat split; apply str_take_length.
Qed.

(** X12: every entry of a store reached from the empty one is of one of
    two kinds: a decimal counter without expiry under a [click:] key, or,
    under [meta:<ad_id>] with a non-empty [ad_id] of at most 120
    characters, a JSON text that reads back as a genre, a page_id and a
    page_url of at most 80, 80 and 300 characters, written with a TTL of
    30 days. *)
Theorem reached_entries env (reqs : list (Z * request number)) (key : string) (e : entry) :
  data (serve env reqs empty_kv) !! key = Some e -> entry_shape key e.
Proof.
  enough (Hgen : forall st,
    (forall k x, data st !! k = Some x -> entry_shape k x) ->
    counters_ok (data st) -> counters_bounded (data st) ->
    forall k x, data (serve env reqs st) !! k = Some x -> entry_shape k x).
  { apply (Hgen empty_kv); [| apply counters_ok_empty | apply counters_ok_empty].
    intros k x Hk. unfold empty_kv in Hk. cbn [data] in Hk.
    by rewrite lookup_empty in Hk. }
  induction reqs as [| [now req] rest IH]; intros st Hshape Hok Hb; [exact Hshape |].
  cbn [serve]. destruct (fetch_keeps_counters env now req st Hok Hb) as [Hok' Hb'].
  apply IH; [| exact Hok' | exact Hb'].
  intros k x Hk. pose proof Hk as Hk'. rewrite fetch_data in Hk.
  destruct (logged_click now req) as [c |] eqn:Hc; [| by apply Hshape].
  destruct (decide (k = meta_key (ad_id c))) as [-> | Hne1].
  - rewrite lookup_insert_eq in Hk. injection Hk as <-.
    destruct (logged_click_shape now req c Hc) as (? & ? & ? & ? & ?).
    right. exists (ad_id c), (genre c), (page_id c), (page_url c).
    repeat split; try done. apply parse_stringify_meta.
  - rewrite lookup_insert_ne in Hk by done.
    destruct (decide (k = click_key c)) as [-> | Hne2]; [| rewrite lookup_insert_ne in Hk by done;
                                                          by apply Hshape].
    rewrite lookup_insert_eq in Hk. left.
    destruct (Hok' _ _ Hk' (counter_key_is_counter _ _)) as [Hdec _].
    injection Hk as <-. by repeat split.
Qed.

Lemma scan_days_same (n : nat) :
  forall i now acc st st',
    data st = data st' ->
    (scan_days n i now acc st).1 = (scan_days n i now acc st').1.
Proof.
  induction n as [| n IH]; intros i now acc st st' Hd; [reflexivity |].
  cbn [scan_days]. destruct (day_string now i) as [day |]; [| reflexivity].
  unfold bind.
  pose proof (scan_prefix_eq (stats_prefix day) acc st) as Hs.
  pose proof (scan_prefix_eq (stats_prefix day) acc st') as Hs'.
  pose proof (scan_reads_only (S (length (matching_keys (stats_prefix day) (data st))))
                (stats_prefix day) None acc st) as [Hd1 _].
  pose proof (scan_reads_only (S (length (matching_keys (stats_prefix day) (data st'))))
                (stats_prefix day) None acc st') as [Hd1' _].
  fold (scan_prefix (stats_prefix day) acc st) in Hd1.
  fold (scan_prefix (stats_prefix day) acc st') in Hd1'.
  destruct (scan_prefix (stats_prefix day) acc st) as [r st1].
  destruct (scan_prefix (stats_prefix day) acc st') as [r' st1'].
  cbn [fst snd] in *. subst r r'. rewrite <- Hd. apply IH. congruence.
Qed.

(** The answer and the store that a request leaves depend on the store
    it finds, not on the calls made before. *)
Lemma fetch_same env now req st st' :
  data st = data st' ->
  (fetch env now req st).1 = (fetch env now req st').1 /\
  data (fetch env now req st).2 = data (fetch env now req st').2.
Proof.
  intros Hd. split; [| by rewrite !fetch_data, Hd].
  unfold fetch, handle_log.
  destruct (String.eqb (pathname req) "/log" && String.eqb (method req) "POST").
  - destruct (json_body req) as [b |]; [| reflexivity].
    destruct (read_click now b) as [c |]; [| reflexivity].
    destruct (String.eqb (ad_id c) ""); [reflexivity |].
    by rewrite !record_click_eq.
  - destruct (String.eqb (pathname req) "/stats" && String.eqb (method req) "GET");
      [| reflexivity].
    destruct (negb (isAuthed env req)); [reflexivity |].
    unfold handle_stats, bind.
    pose proof (scan_days_same (rounds (stats_days (days_param req))) 0
                  (TimeClip now) ∅ st st' Hd) as Hs.
    destruct (scan_days _ 0 (TimeClip now) ∅ st) as [r st1].
    destruct (scan_days _ 0 (TimeClip now) ∅ st') as [r' st1'].
    cbn [fst ret] in *. by subst r'.
Qed.

(** X13: a request that records no click (a [GET /stats], a rejected
    [POST /log], an unknown route) leaves no trace: whatever request
    follows it is answered, and changes the store, as if it had not been
    there.  In particular a repeated [GET /stats] gets the same answer. *)
Theorem no_click_no_trace env now req now' req' st :
  logged_click now req = None ->
  let st1 := (fetch env now req st).2 in
  (fetch env now' req' st1).1 = (fetch env now' req' st).1 /\
  data (fetch env now' req' st1).2 = data (fetch env now' req' st).2.
Proof.
  intros Hnone st1. apply fetch_same. subst st1.
  apply (fetch_not_logged env now req st Hnone).
Qed.

Lemma counter_value_ext (d d' : gmap string entry) (key : string) :
  d !! key = d' !! key -> counter_value d key = counter_value d' key.
Proof. intros Hk. unfold counter_value. by rewrite Hk. Qed.

(** X14: two accepted clicks for different ads leave the same store in
    either order. *)
Theorem clicks_commute env now1 req1 c1 now2 req2 c2 st :
  logged_click now1 req1 = Some c1 -> logged_click now2 req2 = Some c2 ->
  ad_id c1 <> ad_id c2 ->
  data (serve env [(now1, req1); (now2, req2)] st) =
  data (serve env [(now2, req2); (now1, req1)] st).
Proof.
  intros H1 H2 Hads. cbn [serve]. rewrite !fetch_data, H1, H2.
  assert (Hm : meta_key (ad_id c1) <> meta_key (ad_id c2))
    by (intros Heq%meta_key_inj; done).
  pose proof (counter_key_meta_key_ne (str_take 10 (ts c1)) (ad_id c1)) as Hk1.
  pose proof (counter_key_meta_key_ne (str_take 10 (ts c2)) (ad_id c2)) as Hk2.
  fold (click_key c1) in Hk1. fold (click_key c2) in Hk2.
  destruct (decide (click_key c1 = click_key c2)) as [Heq | Hne].
  - rewrite <- Heq in *.
    rewrite !(counter_value_ext (<[meta_key _ := _]> (<[click_key c1 := _]> (data st)))
                (<[click_key c1 :=
                     counter_entry (js_add (counter_value (data st) (click_key c1)) (Int 1))]>
                   (data st)) (click_key c1))
      by (rewrite lookup_insert_ne by (apply not_eq_sym; auto); reflexivity).
    apply map_eq. intros i. rewrite !lookup_insert.
    repeat case_decide; try reflexivity; exfalso; congruence.
  - rewrite (counter_value_ext (<[meta_key (ad_id c1) := _]> (<[click_key c1 := _]> (data st)))
               (data st) (click_key c2))
      by (rewrite !lookup_insert_ne by (apply not_eq_sym; auto); reflexivity).
    rewrite (counter_value_ext (<[meta_key (ad_id c2) := _]> (<[click_key c2 := _]> (data st)))
               (data st) (click_key c1))
      by (rewrite !lookup_insert_ne by (apply not_eq_sym; auto); reflexivity).
    apply map_eq. intros i. rewrite !lookup_insert.
    repeat case_decide; try reflexivity; exfalso; congruence.
Qed.
End Composition.

(** * Closed examples for the further properties *)

(** A [DELETE /log] is not found. *)
Lemma not_found_iff_witness :
  let req := {| method := "DELETE"; pathname := "/log"; authorization := None;
                days_param := None; json_body := @None (json Z) |} in
  fetch sample_env sample_now req empty_kv = (Response 404 (Text "not found"), empty_kv).
Proof.
  intros req.
  destruct (not_found_iff sample_env sample_now req empty_kv) as [[_ Hto] Hst].
  assert (Hout : (fetch sample_env sample_now req empty_kv).1
                 = Response 404 (Text "not found")).
  { apply Hto. split; intros [? ?]; discriminate. }
  specialize (Hst Hout). destruct (fetch sample_env sample_now req empty_kv) as [o s].
  cbn [fst snd] in *. by subst.
Defined.

(** A body that does not parse: [400 bad json], nothing touched. *)
Lemma log_outcomes_witness :
  let st := store_of [("click:2024-01-02:a1", "4")] in
  (fetch sample_env sample_now (log_request None) st).1 = Response 400 (Text "bad json") /\
  (fetch sample_env sample_now (log_request None) st).2 = st.
Proof.
  intros st.
  destruct (log_outcomes sample_env sample_now (log_request None) st eq_refl eq_refl)
    as (Hbad & _ & Hst).
  cbv zeta in *. pose proof (proj1 Hbad eq_refl) as Hout.
  split; [exact Hout |]. apply Hst. rewrite Hout. discriminate.
Defined.

(** An [ad_id] of 130 characters is stored under its first 120. *)
Lemma click_field_limits_witness :
  let long := String.concat "" (replicate 13 "0123456789") in
  let b := JObj [("ad_id", JStr long); ("genre", JStr "news")] in
  exists c, read_click sample_now b = Normal c /\
    ad_id c = String.concat "" (replicate 12 "0123456789") /\
    genre c = "news" /\ (String.length (click_key c) <= 137)%nat.
Proof.
  intros long b.
  destruct (read_click sample_now b) as [c |] eqn:Hc; [| vm_compute in Hc; discriminate Hc].
  exists c. split; [reflexivity |].
  destruct (click_field_limits sample_now b c Hc) as (_ & [Hkey _] & Had & Hg & _).
  split; [| split; [| exact Hkey]].
  - rewrite (proj1 (Had long eq_refl)). vm_compute. reflexivity.
  - apply (proj2 (Hg "news" eq_refl)). cbn [String.length]. lia.
Defined.

(** The body [[1, 2]] has no [ad_id]. *)
Lemma log_non_object_body_witness :
  fetch sample_env sample_now (log_request (Some (JArr [JNum 1; JNum 2]))) empty_kv =
  (Response 400 (Text "missing ad_id"), empty_kv).
Proof.
  apply (log_non_object_body sample_env sample_now _ empty_kv (JArr [JNum 1; JNum 2]));
    [reflexivity | reflexivity | reflexivity | by vm_compute | exact I].
Defined.

(** A flat body with an [ad_id] that is a number is accepted. *)
Lemma log_flat_body_witness :
  let b := JObj [("ad_id", JNum 42); ("genre", JBool true); ("page_id", JNull)] in
  (fetch sample_env sample_now (log_request (Some b)) empty_kv).1 = Response 200 (Text "ok").
Proof.
  intros b.
  destruct (log_flat_body sample_env sample_now (log_request (Some b)) empty_kv
              [("ad_id", JNum 42); ("genre", JBool true); ("page_id", JNull)]
              eq_refl eq_refl eq_refl ltac:(by vm_compute) ltac:(repeat constructor))
    as [Hok | Hbad]; [exact Hok |].
  vm_compute in Hbad. discriminate Hbad.
Defined.

(** The right token is let in: the answer is not 401. *)
Lemma stats_401_iff_witness :
  (fetch sample_env sample_now (stats_request None) empty_kv).1
    <> Response 401 (Text "unauthorized").
Proof.
  intros H401.
  apply (proj1 (stats_401_iff sample_env sample_now (stats_request None) empty_kv
                  eq_refl eq_refl)) in H401.
  apply H401. exists "s3cret". split; [reflexivity |]. split; [discriminate | reflexivity].
Defined.

(** Two days over the turn of the year: the gets follow the window. *)
Lemma stats_answers_witness :
  let now := 1704067200000 in
  let st := store_of [("click:2023-12-31:a1", "3"); ("click:2024-01-01:a1", "2");
                      ("click:2024-01-01:b2", "5"); ("click:2023-12-30:a1", "9")] in
  let r := fetch sample_env now (stats_request (Some "2")) st in
  exists (n : nat) by_ad_id,
    (1 <= n <= 30)%nat /\
    r.1 = Response 200 (StatsJson (Int (Z.of_nat n)) by_ad_id) /\
    get_keys (drop (length (ops st)) (ops r.2)) =
      concat (map (fun day => matching_keys (stats_prefix day) (data st))
                  (window_days now n)) /\
    put_keys (drop (length (ops st)) (ops r.2)) = [] /\ data r.2 = data st.
Proof.
  intros now st r.
  apply (stats_answers sample_env now (stats_request (Some "2")) st);
    [reflexivity | reflexivity | reflexivity | by vm_compute].
Defined.

(** The ad [c3] has no counter in the window and is not listed. *)
Lemma stats_lists_counted_ads_witness :
  let st := store_of [("click:2024-01-01:a1", "3"); ("click:2024-01-02:a1", "2");
                      ("click:2024-01-02:b2", "5"); ("click:2023-12-25:c3", "7")] in
  let by_ad_id : gmap string jsval := {[ "a1" := VNum (Int 5); "b2" := VNum (Int 5) ]} in
  is_Some (by_ad_id !! "c3") <->
  "c3" <> "__proto__" /\
  Exists (fun day => is_Some (data st !! (stats_prefix day +:+ "c3")))
         ["2024-01-02"; "2024-01-01"].
Proof.
  intros st by_ad_id.
  apply (stats_lists_counted_ads sample_env sample_now (stats_request (Some "2")) st
           ["2024-01-02"; "2024-01-01"] by_ad_id (Int 2));
    [reflexivity | reflexivity | reflexivity | by vm_compute | by vm_compute].
Defined.

(** Three clicks today and one yesterday, then the stats of two days. *)
Lemma stats_reports_logged_clicks_witness :
  let today := log_request (Some (JObj [("ad_id", JStr "a1")])) in
  let yesterday := log_request (Some (JObj [("ad_id", JStr "a1");
                                            ("ts", JStr "2024-01-01T23:59:59.000Z")])) in
  let other := log_request (Some (JObj [("ad_id", JStr "b2")])) in
  let reqs := [(sample_now, today); (sample_now + 1, yesterday); (sample_now + 2, other);
               (sample_now + 3, today); (sample_now + 4, today)] in
  exists by_ad_id,
    (fetch sample_env sample_now (stats_request (Some "2"))
       (serve sample_env reqs empty_kv)).1 = Response 200 (StatsJson (Int 2) by_ad_id) /\
    by_ad_id !! "a1" = Some (VNum (Int 4)).
Proof.
  intros today yesterday other reqs.
  destruct (stats_reports_logged_clicks sample_env reqs sample_now
              (stats_request (Some "2")) "a1" eq_refl eq_refl eq_refl
              ltac:(by vm_compute) ltac:(split; [discriminate | reflexivity])
              ltac:(by vm_compute)) as (m & Hresp & Hm).
  exists m. split; [exact Hresp |]. rewrite Hm. vm_compute. reflexivity.
Defined.

(** A counter of another ad and an entry of another writer are still
    there after two clicks. *)
Lemma lasting_keys_are_kept_witness :
  let st := store_of [("click:2024-01-02:b2", "4"); ("note", "n")] in
  let click := log_request (Some (JObj [("ad_id", JStr "a1")])) in
  let st' := serve sample_env [(sample_now, click); (sample_now + 1, click)] st in
  (exists e', data st' !! "click:2024-01-02:b2" = Some e' /\ expirationTtl e' = None) /\
  (exists e', data st' !! "note" = Some e' /\ expirationTtl e' = None).
Proof.
  intros st click st'. split.
  - apply (lasting_keys_are_kept sample_env [(sample_now, click); (sample_now + 1, click)] st
             "click:2024-01-02:b2" {| value := "4"; expirationTtl := None |});
      [vm_compute; reflexivity | reflexivity | reflexivity].
  - apply (lasting_keys_are_kept sample_env [(sample_now, click); (sample_now + 1, click)] st
             "note" {| value := "n"; expirationTtl := None |});
      [vm_compute; reflexivity | reflexivity | reflexivity].
Defined.

(** The second click on an ad raises its counter from 1 to 2. *)
Lemma counter_steps_witness :
  let click := log_request (Some (JObj [("ad_id", JStr "a1")])) in
  let st := serve sample_env [(sample_now, click)] empty_kv in
  exists p q,
    counter_value (data st) "click:2024-01-02:a1" = Int p /\
    counter_value (data (fetch sample_env (sample_now + 1) click st).2)
                  "click:2024-01-02:a1" = Int q /\
    0 <= p /\ p <= q <= p + 1 /\ q <= 2 ^ 53.
Proof.
  intros click st.
  apply (counter_steps sample_env [(sample_now, click)] (sample_now + 1) click
           "click:2024-01-02:a1" eq_refl).
Defined.

(** The metadata entry of one click, with a quote in the genre. *)
Lemma reached_entries_witness :
  let click := log_request (Some (JObj [("ad_id", JStr "a1");
                                        ("genre", JStr ("new" +:+ dq +:+ "s"))])) in
  let text :=
    "{" +:+ dq +:+ "genre" +:+ dq +:+ ":" +:+ dq +:+ "new\" +:+ dq +:+ "s" +:+ dq +:+ "," +:+
    dq +:+ "page_id" +:+ dq +:+ ":" +:+ dq +:+ dq +:+ "," +:+
    dq +:+ "page_url" +:+ dq +:+ ":" +:+ dq +:+ dq +:+ "}" in
  entry_shape "meta:a1" {| value := text; expirationTtl := Some 2592000 |} /\
  parse_meta text = Some ("new" +:+ dq +:+ "s", "", "").
Proof.
  intros click text. split; [| reflexivity].
  apply (reached_entries sample_env [(sample_now, click)]). vm_compute. reflexivity.
Defined.

(** A [GET /stats] asked twice gets the same answer. *)
Lemma no_click_no_trace_witness :
  let st := store_of [("click:2024-01-02:a1", "4")] in
  let stats := stats_request (Some "3") in
  (fetch sample_env (sample_now + 1) stats (fetch sample_env sample_now stats st).2).1 =
  (fetch sample_env (sample_now + 1) stats st).1.
Proof.
  intros st stats.
  apply (no_click_no_trace sample_env sample_now stats (sample_now + 1) stats st).
  reflexivity.
Defined.

(** A click on [a1] and a click on [b2], in both orders. *)
Lemma clicks_commute_witness :
  let r1 := log_request (Some (JObj [("ad_id", JStr "a1")])) in
  let r2 := log_request (Some (JObj [("ad_id", JStr "b2")])) in
  data (serve sample_env [(sample_now, r1); (sample_now + 1, r2)] empty_kv) =
  data (serve sample_env [(sample_now + 1, r2); (sample_now, r1)] empty_kv).
Proof.
  intros r1 r2.
  apply (clicks_commute sample_env sample_now r1
           {| ts := "2024-01-02T12:00:00.000Z"; ad_id := "a1"; genre := "";
              page_id := ""; page_url := "" |}
           (sample_now + 1) r2
           {| ts := "2024-01-02T12:00:00.001Z"; ad_id := "b2"; genre := "";
              page_id := ""; page_url := "" |} empty_kv);
    [by vm_compute | by vm_compute | discriminate].
Defined.

(** * Closed examples *)

(** A wrong token: 401, and the store as it was, with no call made. *)
Lemma stats_unauthorized_witness :
  let req := {| method := "GET"; pathname := "/stats";
                authorization := Some "Bearer guess"; days_param := Some "3";
                json_body := @None (json Z) |} in
  let st := store_of [("click:2024-01-02:a1", "4")] in
  fetch sample_env sample_now req st = (Response 401 (Text "unauthorized"), st).
Proof.
  intros req st. apply stats_unauthorized; [reflexivity | reflexivity |].
  right. exists "s3cret". split; [reflexivity | discriminate].
Defined.

(** One click: the counter and the metadata are put, the entry of
    another ad stays. *)
Lemma log_and_stats_frame_witness :
  let req := log_request (Some (JObj [("ad_id", JStr "a1")])) in
  let st := store_of [("click:2024-01-02:b2", "4")] in
  let st' := (fetch sample_env sample_now req st).2 in
  put_keys (drop (length (ops st)) (ops st')) = ["click:2024-01-02:a1"; "meta:a1"] /\
  data st' !! "click:2024-01-02:b2" = data st !! "click:2024-01-02:b2".
Proof.
  intros req st st'.
  destruct (proj1 (log_and_stats_frame sample_env sample_now req st)
              eq_refl eq_refl eq_refl) as (c & Hc & Hputs & _ & _ & _ & Hframe).
  vm_compute in Hc. injection Hc as <-. split; [exact Hputs |].
  apply Hframe; discriminate.
Defined.

(** The example of the specification: three counters over two days. *)
Lemma stats_two_days :
  let st := store_of [("click:2024-01-01:a1", "3"); ("click:2024-01-02:a1", "2");
                      ("click:2024-01-02:b2", "5")] in
  (fetch sample_env sample_now (stats_request (Some "2")) st).1 =
  Response 200 (StatsJson (Int 2) {[ "a1" := VNum (Int 5); "b2" := VNum (Int 5) ]}).
Proof. vm_compute. reflexivity. Qed.

(** C2 at an [ad_id] that names a member of [Object.prototype]: three
    clicks are logged for the ad [toString], and the stats of that day
    hold a string under that name, not the count 3. *)
Lemma stats_inherited_name :
  let click := log_request (Some (JObj [("ad_id", JStr "toString")])) in
  let st := serve sample_env
              [(sample_now, click); (sample_now + 1, click); (sample_now + 2, click)]
              empty_kv in
  value <$> data st !! "click:2024-01-02:toString" = Some "3" /\
  (fetch sample_env sample_now (stats_request (Some "1")) st).1 =
  Response 200
    (StatsJson (Int 1)
       {[ "toString" := VStr "function toString() { [native code] }3" ]}).
Proof. vm_compute. split; reflexivity. Qed.

(** C5 at the body [null]: reading [body.ts] throws, and the exception is
    not caught. *)
Lemma log_null_body_throws (env : environment) (now : Z) (st : kv) :
  fetch env now (log_request (Some JNull)) st = (Threw TypeError, st).
Proof. reflexivity. Qed.

(** C10 at the body [{"ad_id": 0, "ts": {"toString": 1}}]: the call of
    [toString] on the [ts] member throws before the [ad_id] is looked at. *)
Lemma log_falsy_ad_id_throws (env : environment) (now : Z) (st : kv) :
  fetch env now
    (log_request (Some (JObj [("ad_id", JNum 0); ("ts", JObj [("toString", JNum 1)])])))
    st = (Threw TypeError, st).
Proof. reflexivity. Qed.

(** C6 at the body [{"ad_id": "a1", "ts": {"toString": 1}}]: the [ts]
    that is provided cannot be turned into a string, the call of its
    [toString] throws, and the request ends without a timestamp, a day
    bucket or a counter key: nothing is read from the store or written
    to it.  A [genre] of that kind ends the request in the same way,
    although [ts] and [ad_id] are in order.  Every other kind of [ts] is
    turned into a string, as the keys that are written show: a number is
    printed in decimal, a boolean by its name, an array as its elements
    joined by commas, and an object without a [toString] of its own as
    [[object Object]]; a string is taken as it is, and without a truthy
    [ts] the day is that of the clock. *)
Theorem log_ts_object_throws :
  let log (members : list (string * json Z)) :=
    log_request (Some (JObj (("ad_id", JStr "a1") :: members))) in
  let written members :=
    put_keys (ops (fetch sample_env sample_now (log members) empty_kv).2) in
  (forall env now st,
     fetch env now (log [("ts", JObj [("toString", JNum 1)])]) st = (Threw TypeError, st)) /\
  (forall env now st,
     fetch env now (log [("ts", JStr "2024-01-02T00:00:00Z");
                         ("genre", JObj [("toString", JNum 1)])]) st
     = (Threw TypeError, st)) /\
  written [("ts", JObj [("toString", JNum 1)])] = [] /\
  written [("ts", JNum 1700000000000)] = ["click:1700000000:a1"; "meta:a1"] /\
  written [("ts", JBool true)] = ["click:true:a1"; "meta:a1"] /\
  written [("ts", JArr [JNum 2024; JNull; JStr "x"; JBool false])]
    = ["click:2024,,x,fa:a1"; "meta:a1"] /\
  written [("ts", JObj [])] = ["click:[object Ob:a1"; "meta:a1"] /\
  written [("ts", JStr "2023-12-31T23:59:59+09:00")] = ["click:2023-12-31:a1"; "meta:a1"] /\
  written [("ts", JNum 0)] = ["click:2024-01-02:a1"; "meta:a1"] /\
  written [] = ["click:2024-01-02:a1"; "meta:a1"].
Proof.
  intros log written. split; [reflexivity |]. split; [reflexivity |].
  vm_compute. repeat split; reflexivity.
Qed.
